(** * SampSharp host-side server: protocol state machine and dispatcher

    A shallow embedding of [src/SampSharp/server.cpp].  The server object is
    an explicit record that is threaded through every operation by a small
    state monad; the two polling loops of the source ([cmd_receive_unhandled]
    and the loop of [tick]) are bounded by a fuel counter, and a computation
    that exhausts its fuel still hands back the state it reached.

    The model is the release build on a platform other than Windows:
    [log_debug] is compiled out, so its calls leave no mark, and [vsnprintf]
    is the function of the C library.  The one heap block the code releases and may release
    again, the response held by the loop of [tick], is followed there; the
    other releases are not modelled. *)

From Stdlib Require Import ZArith List String Bool Lia.
Import ListNotations.
Local Open Scope Z_scope.

(** ** Constants *)

Definition LEN_PRINT_BUFFER : Z := 1024.
Definition LEN_NETBUF : Z := 20000.

(* receive *)
Definition CMD_PING : Z := 0x01.
Definition CMD_PRINT : Z := 0x02.
Definition CMD_RESPONSE : Z := 0x03.
Definition CMD_RECONNECT : Z := 0x04.
Definition CMD_REGISTER_CALL : Z := 0x05.
Definition CMD_FIND_NATIVE : Z := 0x06.
Definition CMD_INVOKE_NATIVE : Z := 0x07.
Definition CMD_START : Z := 0x08.

(* send *)
Definition CMD_TICK : Z := 0x11.
Definition CMD_PONG : Z := 0x12.
Definition CMD_PUBLIC_CALL : Z := 0x13.
Definition CMD_REPLY : Z := 0x14.
Definition CMD_ANNOUNCE : Z := 0x15.

(** Modelled from the spec: the [status] enumeration is declared in server.h,
    which is not part of the sources at hand.  The spec describes it as a set
    of independent, combinable boolean flags; each flag is one bit of the
    mask, in the order the spec lists them. *)
Definition status_none : Z := 0.
Definition status_client_connected : Z := 1.
Definition status_client_started : Z := 2.
Definition status_client_received_init : Z := 4.
Definition status_server_received_init : Z := 8.
Definition status_client_reconnecting : Z := 16.

(** The commands that [cmd_process] maps to a handler, in the order of its
    [MAP_COMMAND] lines. *)
Definition mapped_commands : list Z :=
  [CMD_PING; CMD_PRINT; CMD_REGISTER_CALL; CMD_FIND_NATIVE; CMD_INVOKE_NATIVE;
   CMD_RECONNECT; CMD_START].

Definition is_mapped (cmd : Z) : bool := existsb (Z.eqb cmd) mapped_commands.

(** The request identifiers of the wire protocol, [0x01] to [0x08]. *)
Definition request_commands : list Z :=
  [CMD_PING; CMD_PRINT; CMD_RESPONSE; CMD_RECONNECT; CMD_REGISTER_CALL;
   CMD_FIND_NATIVE; CMD_INVOKE_NATIVE; CMD_START].

(** The four dispatch outcomes ([cmd_status] of server.h, as the source uses
    them). *)
Inductive cmd_status : Type := handled | unhandled | no_cmd | conn_dead.

Definition cmd_status_eqb (a b : cmd_status) : bool :=
  match a, b with
  | handled, handled | unhandled, unhandled
  | no_cmd, no_cmd | conn_dead, conn_dead => true
  | _, _ => false
  end.

(** ** Bytes and buffers

    A byte is a [Z] in [0, 256); a buffer is the list of its bytes.  Writing
    [data] at the start of a buffer overwrites a prefix and leaves the rest of
    the old contents in place. *)

Definition write_buf (data buf : list Z) : list Z :=
  data ++ skipn (List.length data) buf.

(** [memcpy(dst, buf, n)] into a fresh array of [n] bytes. *)
Definition copy_bytes (buf : list Z) (n : Z) : list Z :=
  firstn (Z.to_nat n) buf.

(** The bytes of a C string: everything before the first NUL. *)
Fixpoint c_str (buf : list Z) : list Z :=
  match buf with
  | [] => []
  | b :: rest => if b =? 0 then [] else b :: c_str rest
  end.

(** The four bytes of a 32-bit value, least significant first (the targets of
    the plugin are little-endian). *)
Definition le_bytes32 (v : Z) : list Z :=
  [Z.land v 255;
   Z.land (Z.shiftr v 8) 255;
   Z.land (Z.shiftr v 16) 255;
   Z.land (Z.shiftr v 24) 255].

(** [*((uint32_t * )(p + off))]: the 32-bit value held in four bytes. *)
Definition read_u32 (bytes : list Z) (off : nat) : Z :=
  nth off bytes 0
  + Z.shiftl (nth (off + 1) bytes 0) 8
  + Z.shiftl (nth (off + 2) bytes 0) 16
  + Z.shiftl (nth (off + 3) bytes 0) 24.

(** Storing a [uint32_t] into a [cell] (a signed 32-bit integer). *)
Definition to_cell (u : Z) : Z :=
  let w := u mod 2 ^ 32 in
  if w <? 2 ^ 31 then w else w - 2 ^ 32.

(** ** Observable events

    Every call that leaves the server (a frame handed to the transport, a line
    printed, a console command) is appended to a ghost trace together with the
    status mask at that moment. *)

Inductive event : Type :=
| Sent (cmd : Z) (data : list Z)
| Printed (text : list Z)
| Logged (prefix : string) (text : string)
| Rcon (command : string).

(** ** External collaborators *)

(** Modelled from the spec: the transport ([communication_server], declared
    outside server.cpp).  Only its interface is known: [setup], [is_ready],
    [connect], [is_connected], [disconnect], [send] and [receive].  A frame
    passed to [send] is given as its command byte and its [len] payload bytes;
    [receive] yields an outcome, a command byte and the payload it stored in
    the receive buffer. *)
Class communication_server (T : Type) : Type := {
  comm_setup : T -> bool * T;
  comm_is_ready : T -> bool;
  comm_connect : T -> bool * T;
  comm_is_connected : T -> bool;
  comm_disconnect : T -> T;
  comm_send : Z -> list Z -> T -> T;
  comm_receive : T -> (cmd_status * Z * list Z) * T
}.

(** Modelled from the spec: the Native Registry ([natives_map], declared
    outside server.cpp) with [get_handle], [invoke] and [clear]; after
    [clear] it reports empty. *)
Class natives_map (N : Type) : Type := {
  natives_get_handle : list Z -> N -> Z * N;
  natives_invoke : list Z -> Z -> N -> list Z * N;
  natives_clear : N -> N;
  natives_is_empty : N -> bool;
  natives_clear_is_empty : forall n, natives_is_empty (natives_clear n) = true
}.

(** Modelled from the spec: the Callback Registry ([callbacks_map], declared
    outside server.cpp) with [register_buffer], [fill_call_buffer] and
    [clear]; after [clear] it reports empty.  [fill_call_buffer] yields the
    bytes it serialised; the length it returns is their number, and zero
    means that there is nothing to send. *)
Class callbacks_map (C : Type) : Type := {
  callbacks_register_buffer : list Z -> C -> C;
  callbacks_fill_call_buffer : option Z -> string -> list Z -> C -> list Z;
  callbacks_clear : C -> C;
  callbacks_is_empty : C -> bool;
  callbacks_clear_is_empty :
    forall c, callbacks_is_empty (callbacks_clear c) = true
}.

(** ** The monad: state passing, with a fuel bound on the loops

    A computation takes the state and gives back the state it reached and,
    unless a loop ran out of fuel on the way, a result. *)

Definition M (S A : Type) : Type := S -> option A * S.

Definition ret {S A : Type} (a : A) : M S A := fun s => (Some a, s).

Definition bind {S A B : Type} (m : M S A) (f : A -> M S B) : M S B :=
  fun s =>
    match m s with
    | (Some a, s') => f a s'
    | (None, s') => (None, s')
    end.

Definition out_of_fuel {S A : Type} : M S A := fun s => (None, s).

Definition gets {S A : Type} (f : S -> A) : M S A := fun s => (Some (f s), s).

Definition modify {S : Type} (f : S -> S) : M S unit := fun s => (Some tt, f s).

Declare Scope monad_scope.
Delimit Scope monad_scope with monad.
Notation "x <- m ;; k" := (bind m (fun x => k))
  (at level 61, m at next level, right associativity) : monad_scope.
Notation "' pat <- m ;; k" := (bind m (fun x => match x with pat => k end))
  (at level 61, pat pattern, m at next level, right associativity)
  : monad_scope.
Notation "m ;; k" := (bind m (fun _ => k))
  (at level 61, right associativity) : monad_scope.
Local Open Scope monad_scope.

(** ** The server *)

(** Modelled from the spec: version.h is not part of the sources at hand; the
    announcement carries its two numbers, the protocol version and the build
    version. *)
Class version_h : Type := {
  PLUGIN_PROTOCOL_VERSION : Z;
  PLUGIN_VERSION : Z
}.

Section Server.

Context {T N C : Type}.
Context {transport : communication_server T}.
Context {natives : natives_map N}.
Context {callbacks : callbacks_map C}.
Context {version : version_h}.

Record server : Type := mk_server {
  status_ : Z;
  communication_ : T;
  natives_ : N;
  callbacks_ : C;
  buf_ : list Z;
  trace : list (Z * event)
}.

Definition with_status (v : Z) (s : server) : server :=
  mk_server v (communication_ s) (natives_ s) (callbacks_ s) (buf_ s) (trace s).
Definition with_communication (t : T) (s : server) : server :=
  mk_server (status_ s) t (natives_ s) (callbacks_ s) (buf_ s) (trace s).
Definition with_natives (n : N) (s : server) : server :=
  mk_server (status_ s) (communication_ s) n (callbacks_ s) (buf_ s) (trace s).
Definition with_callbacks (c : C) (s : server) : server :=
  mk_server (status_ s) (communication_ s) (natives_ s) c (buf_ s) (trace s).
Definition with_buf (b : list Z) (s : server) : server :=
  mk_server (status_ s) (communication_ s) (natives_ s) (callbacks_ s) b
            (trace s).
Definition with_trace (tr : list (Z * event)) (s : server) : server :=
  mk_server (status_ s) (communication_ s) (natives_ s) (callbacks_ s)
            (buf_ s) tr.

(** [server::server]: the status starts at [status_none]; [mem] is whatever
    the freshly allocated receive buffer happens to hold. *)
Definition server_new (communication : T) (n : N) (c : C) (mem : list Z)
  : server :=
  mk_server status_none communication n c mem [].

(** *** Status macros *)

Definition isset (st v : Z) : bool := Z.land st v =? v.

Definition STATUS_SET (v : Z) : M server unit :=
  modify (fun s => with_status (Z.lor (status_ s) v) s).
Definition STATUS_UNSET (v : Z) : M server unit :=
  modify (fun s => with_status (Z.land (status_ s) (Z.lnot v)) s).
Definition STATUS_ISSET (v : Z) : M server bool :=
  gets (fun s => isset (status_ s) v).

(** *** Logging and the calls that leave the server *)

Definition emit (e : event) : M server unit :=
  modify (fun s => with_trace (trace s ++ [(status_ s, e)]) s).

(** [vlog] formats into a buffer of [LEN_PRINT_BUFFER] bytes whose last byte
    is the terminator. *)
Definition vlog (prefix text : string) : M server unit :=
  emit (Logged prefix (substring 0 (Z.to_nat (LEN_PRINT_BUFFER - 1)) text)).
Definition log_error (text : string) : M server unit := vlog "ERROR" text.
Definition log_info (text : string) : M server unit := vlog "INFO" text.
Definition print (text : list Z) : M server unit := emit (Printed text).
Definition sampgdk_SendRconCommand (command : string) : M server unit :=
  emit (Rcon command).

(** [communication_->send(cmd, len, data)] *)
Definition send (cmd : Z) (data : list Z) : M server unit :=
  emit (Sent cmd data);;
  modify (fun s => with_communication (comm_send cmd data (communication_ s)) s).

(** [callbacks_.fill_call_buffer(amx, name, params, buf_, LEN_NETBUF)]: the
    serialised call lands in [buf_], its length is returned. *)
Definition fill_call_buffer (amx : option Z) (name : string) (params : list Z)
  : M server Z :=
  fun s =>
    let data := callbacks_fill_call_buffer amx name params (callbacks_ s) in
    (Some (Z.of_nat (List.length data)), with_buf (write_buf data (buf_ s)) s).

(** Calls into the collaborators that change them: the new collaborator
    replaces the old one in the server. *)
Definition transport_setup : M server bool :=
  fun s => let r := comm_setup (communication_ s) in
           (Some (fst r), with_communication (snd r) s).

Definition transport_connect : M server bool :=
  fun s => let r := comm_connect (communication_ s) in
           (Some (fst r), with_communication (snd r) s).

Definition transport_disconnect : M server unit :=
  modify (fun s => with_communication (comm_disconnect (communication_ s)) s).

(** [communication_->receive(&command, buf_, &command_len)]: the payload
    lands in [buf_]; the outcome, the command and the payload length are
    returned. *)
Definition transport_receive : M server (cmd_status * Z * Z) :=
  fun s => let r := comm_receive (communication_ s) in
           let '(stat, command, payload) := fst r in
           (Some (stat, command, Z.of_nat (List.length payload)),
            with_buf (write_buf payload (buf_ s))
                     (with_communication (snd r) s)).

Definition natives_call_get_handle (buf : list Z) : M server Z :=
  fun s => let r := natives_get_handle buf (natives_ s) in
           (Some (fst r), with_natives (snd r) s).

(** [natives_.invoke(buf, buflen, buf_, &txlen)]: the answer lands in [buf_],
    its length is returned. *)
Definition natives_call_invoke (buf : list Z) (buflen : Z) : M server Z :=
  fun s => let r := natives_invoke buf buflen (natives_ s) in
           (Some (Z.of_nat (List.length (fst r))),
            with_buf (write_buf (fst r) (buf_ s)) (with_natives (snd r) s)).

(** *** Getters *)

Definition is_client_connected : M server bool :=
  c <- gets (fun s => comm_is_connected (communication_ s));;
  f <- STATUS_ISSET status_client_connected;;
  ret (c && f).

(** *** Connection *)

Definition cmd_send_announce : M server unit :=
  send CMD_ANNOUNCE
       (le_bytes32 PLUGIN_PROTOCOL_VERSION ++ le_bytes32 PLUGIN_VERSION);;
  log_info "Server annoucement sent.".

Definition connect : M server bool :=
  c <- gets (fun s => comm_is_connected (communication_ s));;
  if c then ret true else
  r <- gets (fun s => comm_is_ready (communication_ s));;
  up <- (if r then ret true else transport_setup);;
  if negb up then ret false else
  ok <- transport_connect;;
  if negb ok then ret false else
  STATUS_SET status_client_connected;;
  rc <- STATUS_ISSET status_client_reconnecting;;
  (if rc then log_info "Client reconnected."
   else log_info "Connected to client.";; cmd_send_announce);;
  STATUS_UNSET status_client_reconnecting;;
  ret true.

(** [context] is a C string or NULL. *)
Definition disconnect (context : option string) (expected : bool)
  : M server unit :=
  c <- is_client_connected;;
  if negb c then ret tt else
  (if negb expected then
     let context := match context with Some c => c | None => ""%string end in
     log_error ("Unexpected disconnect of client. " ++ context);;
     STATUS_UNSET status_client_started;;
     modify (fun s => with_natives (natives_clear (natives_ s)) s);;
     modify (fun s => with_callbacks (callbacks_clear (callbacks_ s)) s)
   else log_info "Client disconnected.");;
  transport_disconnect;;
  transport_setup;;
  STATUS_UNSET status_client_connected.

(** *** Commands

    Each handler receives the payload [buf] (the receive buffer) and its
    length [buflen]. *)

Definition cmd_ping (buf : list Z) (buflen : Z) : M server unit :=
  send CMD_PONG [].

Definition cmd_print (buf : list Z) (buflen : Z) : M server unit :=
  print (c_str buf).

Definition cmd_register_call (buf : list Z) (buflen : Z) : M server unit :=
  modify (fun s =>
            with_callbacks (callbacks_register_buffer buf (callbacks_ s)) s).

Definition cmd_find_native (buf : list Z) (buflen : Z) : M server unit :=
  handle <- natives_call_get_handle buf;;
  send CMD_RESPONSE (le_bytes32 handle).

Definition cmd_invoke_native (buf : list Z) (buflen : Z) : M server unit :=
  txlen <- natives_call_invoke buf buflen;;
  b <- gets buf_;;
  send CMD_RESPONSE (copy_bytes b txlen).

Definition cmd_reconnect (buf : list Z) (buflen : Z) : M server unit :=
  log_info "The gamemode has is reconnecting.";;
  STATUS_SET status_client_reconnecting;;
  disconnect None true.

Definition is_null {A : Type} (pointer : option A) : bool :=
  match pointer with None => true | Some _ => false end.

(** What a drain hands back: its boolean result, the response pointer (NULL
    or the owned copy) and the length. *)
Definition reply : Type := (bool * option (list Z) * Z)%type.

(** [cmd_start] waits for the answer to its init call through
    [cmd_receive_unhandled], which in turn dispatches commands; the drain is
    passed in, and [cmd_receive_unhandled] below closes the cycle. *)
Definition cmd_start (drain : M server reply) (buf : list Z) (buflen : Z)
  : M server unit :=
  log_info "The gamemode has started.";;
  STATUS_SET status_client_started;;
  let type := if buflen =? 0 then 0 else nth 0 buf 0 in
  if type =? 0 then ret tt
  else if type =? 1 then
    init <- STATUS_ISSET status_server_received_init;;
    if init then sampgdk_SendRconCommand "gmx" else ret tt
  else if type =? 2 then
    init <- STATUS_ISSET status_server_received_init;;
    if init then
      STATUS_SET status_client_received_init;;
      len <- fill_call_buffer None "OnGameModeInit" [0];;
      if len =? 0 then ret tt else
      b <- gets buf_;;
      send CMD_PUBLIC_CALL (copy_bytes b len);;
      '(ok, response, len) <- drain;;
      if negb ok || is_null response || (len =? 0)
      then log_error "Received no response to callback OnGameModeInit."
      else ret tt
    else ret tt
  else log_error "Invalid game mode start mode".

(** [resp] and [resplen] are the caller's slots; the result carries what they
    hold afterwards. *)
Definition cmd_process (drain : M server reply) (cmd : Z) (buf : list Z)
  (buflen : Z) (resp : option (list Z)) (resplen : Z)
  : M server (cmd_status * option (list Z) * Z) :=
  if cmd =? CMD_PING then cmd_ping buf buflen;; ret (handled, resp, resplen)
  else if cmd =? CMD_PRINT then
    cmd_print buf buflen;; ret (handled, resp, resplen)
  else if cmd =? CMD_REGISTER_CALL then
    cmd_register_call buf buflen;; ret (handled, resp, resplen)
  else if cmd =? CMD_FIND_NATIVE then
    cmd_find_native buf buflen;; ret (handled, resp, resplen)
  else if cmd =? CMD_INVOKE_NATIVE then
    cmd_invoke_native buf buflen;; ret (handled, resp, resplen)
  else if cmd =? CMD_RECONNECT then
    cmd_reconnect buf buflen;; ret (handled, resp, resplen)
  else if cmd =? CMD_START then
    cmd_start drain buf buflen;; ret (handled, resp, resplen)
  else (* CMD_RESPONSE and default *)
    if 0 <? buflen
    then ret (unhandled, Some (copy_bytes buf buflen), buflen)
    else ret (unhandled, resp, resplen).

Definition cmd_receive_one (drain : M server reply)
  (response : option (list Z)) (len : Z)
  : M server (cmd_status * option (list Z) * Z) :=
  ok <- connect;;
  if negb ok then ret (conn_dead, response, len) else
  '(stat, command, command_len) <- transport_receive;;
  match stat with
  | conn_dead | no_cmd => ret (stat, response, len)
  | _ => b <- gets buf_;; cmd_process drain command b command_len response len
  end.

Fixpoint cmd_receive_unhandled (fuel : nat) : M server reply :=
  match fuel with
  | O => out_of_fuel
  | S fuel' =>
      '(stat, response, len) <-
        cmd_receive_one (cmd_receive_unhandled fuel') None 0;;
      match stat with
      | handled | no_cmd => cmd_receive_unhandled fuel'
      | _ => ret (cmd_status_eqb stat unhandled, response, len)
      end
  end.

(** *** Public calls

    [retval] is the caller's slot: [None] for a NULL pointer, otherwise the
    cell it holds.  The result is the slot after the call. *)

(** Lines 367-399: bookkeeping of the init flags, the gates, serialisation
    and the send.  The result tells whether the call went out. *)
Definition public_call_send (amx : option Z) (name : string)
  (params : list Z) : M server bool :=
  let is_gmi := (name =? "OnGameModeInit")%string in
  let is_gme := negb is_gmi && (name =? "OnGameModeExit")%string in
  (if is_gmi then STATUS_SET status_server_received_init
   else if is_gme then STATUS_UNSET status_server_received_init
   else ret tt);;
  c <- is_client_connected;;
  started <- STATUS_ISSET status_client_started;;
  if negb c || negb started then ret false else
  init <- (if is_gmi
           then STATUS_SET status_client_received_init;; ret true
           else STATUS_ISSET status_client_received_init);;
  if negb init then ret false else
  len <- fill_call_buffer amx name params;;
  if len =? 0 then ret false else
  b <- gets buf_;;
  send CMD_PUBLIC_CALL (copy_bytes b len);;
  ret true.

(** Lines 403-414: what is done with the outcome of the drain. *)
Definition public_call_receive (name : string) (retval : option Z) (r : reply)
  : M server (option Z) :=
  let '(ok, response, len) := r in
  if negb ok || is_null response || (len =? 0) then
    log_error ("Received no response to callback " ++ name ++ ".");;
    ret retval
  else
    let response := match response with Some bytes => bytes | None => [] end in
    if (5 <=? len) && negb (nth 0 response 0 =? 0) && negb (is_null retval)
    then ret (Some (to_cell (read_u32 response 1)))
    else ret retval.

Definition public_call (fuel : nat) (amx : option Z) (name : string)
  (params : list Z) (retval : option Z) : M server (option Z) :=
  sent <- public_call_send amx name params;;
  if negb sent then ret retval else
  r <- cmd_receive_unhandled fuel;;
  public_call_receive name retval r.

(** *** Tick *)

(** The heartbeat at the head of [tick]. *)
Definition tick_heartbeat : M server unit :=
  c <- is_client_connected;;
  f <- STATUS_ISSET (Z.lor status_client_started status_client_received_init);;
  if c && f then send CMD_TICK [] else ret tt.

(** How a tick ends: it returns, or it releases with [delete[]] a block that
    it has released before, where the behaviour of the program is no longer
    defined and the model stops. *)
Inductive tick_end : Type := tick_returned | tick_double_free.

(** The loop of [tick] releases its response and keeps the pointer.  A
    pointer to a released block is modelled as non-NULL with no bytes behind
    it; a copy that [cmd_process] stores is never empty, so the two cannot be
    confused. *)
Definition released_block : list Z := [].

Definition is_released (block : list Z) : bool :=
  match block with
  | [] => true
  | _ :: _ => false
  end.

(** The receive loop of [tick]; [response] and [len] are its two locals.
    [response] is not reset after [delete[]]: unless the next pull stores a
    new copy, the next round finds it non-NULL again, logs the error again
    and releases the same block a second time. *)
Fixpoint tick_receive (fuel : nat) (response : option (list Z)) (len : Z)
  : M server tick_end :=
  match fuel with
  | O => out_of_fuel
  | S fuel' =>
      '(stat, response, len) <-
        cmd_receive_one (cmd_receive_unhandled fuel') response len;;
      match response with
      | None =>
          match stat with
          | no_cmd | conn_dead => ret tick_returned
          | _ => tick_receive fuel' None len
          end
      | Some block =>
          log_error "Unhandled response in tick.";;
          if is_released block then ret tick_double_free
          else
            (* delete[] response *)
            match stat with
            | no_cmd | conn_dead => ret tick_returned
            | _ => tick_receive fuel' (Some released_block) len
            end
      end
  end.

Definition tick (fuel : nat) : M server tick_end :=
  tick_heartbeat;;
  tick_receive fuel None 0.

(** *** Runs of the server

    The operations that the host and the transport invoke on a server, and
    the states that sequences of them reach.  A run that stops for want of
    fuel contributes the state it stopped in. *)

Inductive operation : Type :=
| op_connect
| op_disconnect (context : option string) (expected : bool)
| op_cmd_start (buf : list Z) (buflen : Z)
| op_cmd_reconnect (buf : list Z) (buflen : Z)
| op_public_call (amx : option Z) (name : string) (params : list Z)
                 (retval : option Z)
| op_tick.

Definition run (fuel : nat) (o : operation) (s : server) : server :=
  match o with
  | op_connect => snd (connect s)
  | op_disconnect context expected => snd (disconnect context expected s)
  | op_cmd_start buf buflen =>
      snd (cmd_start (cmd_receive_unhandled fuel) buf buflen s)
  | op_cmd_reconnect buf buflen => snd (cmd_reconnect buf buflen s)
  | op_public_call amx name params retval =>
      snd (public_call fuel amx name params retval s)
  | op_tick => snd (tick fuel s)
  end.

Inductive reachable_by (allowed : operation -> bool) (init : server)
  : server -> Prop :=
| reachable_init : reachable_by allowed init init
| reachable_step s fuel o :
    reachable_by allowed init s -> allowed o = true ->
    reachable_by allowed init (run fuel o s).

Definition any_operation (o : operation) : bool := true.

Definition no_unexpected_disconnect (o : operation) : bool :=
  match o with
  | op_disconnect _ expected => expected
  | _ => true
  end.

(** The invariant of the data model: [client_received_init] is not set while
    [client_started] is unset. *)
Definition init_implies_started (st : Z) : bool :=
  implb (isset st status_client_received_init)
        (isset st status_client_started).

Definition consistent (s : server) : Prop :=
  init_implies_started (status_ s) = true.

(** How many frames with command [cmd] a trace holds. *)
Definition is_sent (cmd : Z) (e : Z * event) : bool :=
  match snd e with
  | Sent c _ => c =? cmd
  | _ => false
  end.

Definition count_sent (cmd : Z) (tr : list (Z * event)) : nat :=
  List.length (filter (is_sent cmd) tr).

(** The trace of [s] is [tr] followed by events among which there is no frame
    with command [cmd]. *)
Definition extends_without (cmd : Z) (tr : list (Z * event)) (s : server)
  : Prop :=
  exists rest, trace s = tr ++ rest /\ count_sent cmd rest = O.

(** A response pointer and a length that fit together: an owned copy of
    [len] bytes with [len] positive, or NULL with length zero. *)
Definition well_formed_reply (response : option (list Z)) (len : Z) : Prop :=
  match response with
  | Some bytes => Z.of_nat (List.length bytes) = len /\ 0 < len
  | None => len = 0
  end.

(** The condition under which [tick] sends its heartbeat. *)
Definition heartbeat_due (s : server) : bool :=
  comm_is_connected (communication_ s)
  && isset (status_ s) status_client_connected
  && (isset (status_ s) status_client_started
      && isset (status_ s) status_client_received_init).

(** *** Construction and teardown *)

(** [server::start]: the transport is set up; the outcome is dropped. *)
Definition start : M server unit :=
  transport_setup;; ret tt.

(** [server::~server]: the transport is disconnected directly, not through
    [disconnect]. *)
Definition server_destroy : M server unit :=
  transport_disconnect.

(** *** Vocabulary for statements *)

(** A line as [vlog] leaves it in the trace. *)
Definition logged (prefix text : string) : event :=
  Logged prefix (substring 0 (Z.to_nat (LEN_PRINT_BUFFER - 1)) text).

(** The outcomes of a drain that [public_call] takes for a missing reply. *)
Definition no_reply (r : reply) : bool :=
  let '(ok, response, len) := r in
  negb ok || is_null response || (len =? 0).

(** What [public_call] adds to the trace once the drain is over: the error
    line when the drain came back without a reply, nothing when it came back
    with one or did not come back. *)
Definition error_tail (name : string) (outcome : option reply) (s : server)
  : list (Z * event) :=
  match outcome with
  | Some r =>
      if no_reply r
      then [(status_ s,
             logged "ERROR" ("Received no response to callback " ++ name ++ "."))]
      else []
  | None => []
  end.

(** The transport [connect] works with once it has made sure that it is set
    up. *)
Definition readied (t : T) : T :=
  if comm_is_ready t then t else snd (comm_setup t).

(** Whether [connect] gets through: the transport is ready or its setup
    succeeds, and its connect succeeds. *)
Definition connectable (t : T) : bool :=
  (comm_is_ready t || fst (comm_setup t)) && fst (comm_connect (readied t)).

(** The server once [cmd_start] has logged the start and set
    [client_started]. *)
Definition started_state (s : server) : server :=
  mk_server (Z.lor (status_ s) status_client_started)
            (communication_ s) (natives_ s) (callbacks_ s) (buf_ s)
            (trace s ++ [(status_ s,
                          logged "INFO" "The gamemode has started.")]).

(** What [cmd_start] does with the outcome of the drain after the init call
    of start mode 2. *)
Definition fake_init_receive (r : reply) : M server unit :=
  let '(ok, response, len) := r in
  if negb ok || is_null response || (len =? 0)
  then log_error "Received no response to callback OnGameModeInit."
  else ret tt.

(** The gates of [public_call]: the client is connected and started, the
    event is the init event or the client has received it, and the
    serialised call is not empty. *)
Definition forwarded (amx : option Z) (name : string) (params : list Z)
  (s : server) : bool :=
  comm_is_connected (communication_ s)
  && isset (status_ s) status_client_connected
  && isset (status_ s) status_client_started
  && ((name =? "OnGameModeInit")%string
      || isset (status_ s) status_client_received_init)
  && negb (Z.of_nat (List.length (callbacks_fill_call_buffer
                                    amx name params (callbacks_ s))) =? 0).

(** The status after the bookkeeping [public_call] does on the init flag of
    the host. *)
Definition track_init (name : string) (st : Z) : Z :=
  if (name =? "OnGameModeInit")%string
  then Z.lor st status_server_received_init
  else if (name =? "OnGameModeExit")%string
       then Z.land st (Z.lnot status_server_received_init)
       else st.

(** The start mode [cmd_start] reads from its payload. *)
Definition start_mode (buf : list Z) (buflen : Z) : Z :=
  if buflen =? 0 then 0 else nth 0 buf 0.

(** The commands of the frames of a trace, in order. *)
Definition sent_commands (tr : list (Z * event)) : list Z :=
  flat_map (fun e => match snd e with Sent c _ => [c] | _ => [] end) tr.

(** The console commands of a trace, in order. *)
Definition console_commands (tr : list (Z * event)) : list string :=
  flat_map (fun e => match snd e with Rcon c => [c] | _ => [] end) tr.

(** The commands of the frames the server sends of its own. *)
Definition host_commands : list Z :=
  [CMD_TICK; CMD_PONG; CMD_PUBLIC_CALL; CMD_ANNOUNCE; CMD_RESPONSE].

(** The trace of [s] is [tr] followed by events whose frames carry host
    commands and whose console commands are gmx. *)
Definition grown_from (tr : list (Z * event)) (s : server) : Prop :=
  exists added,
    trace s = tr ++ added /\
    Forall (fun c => In c host_commands) (sent_commands added) /\
    Forall (fun c => c = "gmx"%string) (console_commands added).

(** The init flag of the host is [b]. *)
Definition host_init_is (b : bool) (s : server) : Prop :=
  isset (status_ s) status_server_received_init = b.

(** The status of [s] has the flag. *)
Definition has_flag (flag : Z) (s : server) : Prop :=
  isset (status_ s) flag = true.

End Server.

Arguments server T N C : clear implicits.

(** ** A scripted transport and two small registries

    Stand-ins for the external collaborators, used to run the server on
    concrete inputs. *)

(** The transport accepts every setup and connect; [inbox] lists what the
    successive calls of [receive] yield, and an empty inbox yields
    [no_cmd]. *)
Record script : Type := mk_script {
  link_up : bool;
  armed : bool;
  inbox : list (cmd_status * Z * list Z);
  outbox : list (Z * list Z)
}.

#[export] Instance script_transport : communication_server script := {
  comm_setup t := (true, mk_script (link_up t) true (inbox t) (outbox t));
  comm_is_ready := armed;
  comm_connect t := (true, mk_script true (armed t) (inbox t) (outbox t));
  comm_is_connected := link_up;
  comm_disconnect t := mk_script false false (inbox t) (outbox t);
  comm_send cmd data t :=
    mk_script (link_up t) (armed t) (inbox t) (outbox t ++ [(cmd, data)]);
  comm_receive t :=
    match inbox t with
    | [] => ((no_cmd, 0, []), t)
    | x :: rest => (x, mk_script (link_up t) (armed t) rest (outbox t))
    end
}.

Definition bytes_of_string (name : string) : list Z :=
  map (fun a => Z.of_N (Ascii.N_of_ascii a)) (list_ascii_of_string name).

Definition string_of_bytes (bytes : list Z) : string :=
  string_of_list_ascii (map (fun b => Ascii.ascii_of_N (Z.to_N b)) bytes).

Fixpoint index_of (name : list Z) (names : list (list Z)) (i : Z) : Z :=
  match names with
  | [] => -1
  | n :: rest =>
      if list_eq_dec Z.eq_dec n name then i else index_of name rest (i + 1)
  end.

(** Natives known by name; the handle is the position, [-1] when unknown, and
    an invocation answers with its own request. *)
#[export] Instance name_list_natives : natives_map (list (list Z)) := {
  natives_get_handle buf n := (index_of (c_str buf) n 0, n);
  natives_invoke buf buflen n := (copy_bytes buf buflen, n);
  natives_clear _ := [];
  natives_is_empty n := match n with [] => true | _ => false end;
  natives_clear_is_empty _ := eq_refl
}.

(** Callbacks known by name; a call to a registered name is serialised as the
    name, a terminator and the parameter cells, any other call as nothing. *)
#[export] Instance name_list_callbacks : callbacks_map (list string) := {
  callbacks_register_buffer buf c := string_of_bytes (c_str buf) :: c;
  callbacks_fill_call_buffer amx name params c :=
    if existsb (String.eqb name) c
    then bytes_of_string name ++ [0] ++ flat_map le_bytes32 params
    else [];
  callbacks_clear _ := [];
  callbacks_is_empty c := match c with [] => true | _ => false end;
  callbacks_clear_is_empty _ := eq_refl
}.

#[export] Instance version_1_2 : version_h := {
  PLUGIN_PROTOCOL_VERSION := 1;
  PLUGIN_VERSION := 2
}.

Definition demo_server : Type := server script (list (list Z)) (list string).

(** A server whose client will send the frames of [frames]. *)
Definition demo (frames : list (cmd_status * Z * list Z)) : demo_server :=
  server_new (mk_script false false frames []) [] [] [].

(** The state after a list of operations, each run with the same fuel. *)
Definition demo_run (fuel : nat) (ops : list operation) (s : demo_server)
  : demo_server :=
  fold_left (fun s o => run fuel o s) ops s.

(** Some states of the demo server. *)

(** Connected, nothing else. *)
Definition demo_connected : demo_server := run 1 op_connect (demo []).

(** Connected and started, no callback registered. *)
Definition demo_started : demo_server :=
  run 1 (op_cmd_start [] 0) demo_connected.

(** A client that connected, registered the init callback and started (start
    mode 0) in its first tick, and will send [frames] later. *)
Definition demo_session (frames : list (cmd_status * Z * list Z))
  : demo_server :=
  run 3 op_tick
      (demo ([(unhandled, CMD_REGISTER_CALL,
               bytes_of_string "OnGameModeInit" ++ [0]);
              (unhandled, CMD_START, []);
              (no_cmd, 0, [])] ++ frames)).

(** The client of [demo_session] after it asked to reconnect. *)
Definition demo_reconnecting : demo_server :=
  run 1 (op_cmd_reconnect [] 0) (demo_session []).

(** The init call reached the started client, then the client was lost. *)
Definition demo_lost : demo_server :=
  run 1 (op_disconnect None false)
      (run 1 (op_public_call None "OnGameModeInit" [0] None) demo_started).

(** The client of [demo_session] with a reply to the init call in flight. *)
Definition demo_replying : demo_server :=
  demo_session [(unhandled, CMD_RESPONSE, [1; 42; 0; 0; 0])].

(** The same, with a ping ahead of the reply. *)
Definition demo_pinging : demo_server :=
  demo_session [(unhandled, CMD_PING, []);
                (unhandled, CMD_RESPONSE, [1; 42; 0; 0; 0])].

(** The client of [demo_session] restarting with mode 2 while the init call
    waits for its reply. *)
Definition demo_restarting : demo_server :=
  demo_session [(unhandled, CMD_START, [2]);
                (unhandled, CMD_RESPONSE, [1]);
                (unhandled, CMD_RESPONSE, [1; 42; 0; 0; 0])].

(** The client of [demo_replying] once it has answered the init call. *)
Definition demo_initialised : demo_server :=
  run 1 (op_public_call None "OnGameModeInit" [0] None) demo_replying.

(** The client of [demo_session] answering with an empty frame. *)
Definition demo_empty_reply : demo_server :=
  demo_session [(unhandled, CMD_RESPONSE, [])].

(** A transport that no client ever reaches: setup and connect fail and
    nothing is received. *)
Inductive no_link : Type := unplugged.

#[export] Instance no_link_transport : communication_server no_link := {
  comm_setup t := (false, t);
  comm_is_ready _ := false;
  comm_connect t := (false, t);
  comm_is_connected _ := false;
  comm_disconnect t := t;
  comm_send _ _ t := t;
  comm_receive t := ((conn_dead, 0, []), t)
}.

(** A server without a client in reach. *)
Definition demo_offline : server no_link (list (list Z)) (list string) :=
  server_new unplugged [] [] [].

(** No client yet, and the host has seen its init event. *)
Definition demo_host_ready : demo_server :=
  run 1 (op_public_call None "OnGameModeInit" [0] None) (demo []).

(** The client of [demo_session] answering with two bytes. *)
Definition demo_short_reply : demo_server :=
  demo_session [(unhandled, CMD_RESPONSE, [1; 42])].

(** The client of [demo_session] whose connection dies before it answers. *)
Definition demo_dying : demo_server :=
  demo_session [(conn_dead, 0, [])].

(** The client of [demo_session] printing two letters. *)
Definition demo_printing : demo_server :=
  demo_session [(unhandled, CMD_PRINT, [72; 105; 0])].

Arguments status_client_connected : simpl never.
Arguments status_client_started : simpl never.
Arguments status_client_received_init : simpl never.
Arguments status_server_received_init : simpl never.
Arguments status_client_reconnecting : simpl never.
Arguments isset : simpl never.

(** * Properties *)

(** Case analysis on the condition of a conditional in the goal. *)
Ltac split_if :=
  match goal with
  | |- context [if ?b then _ else _] => destruct b eqn:?
  end.

(** ** Status masks, bit by bit *)

Lemma isset_bit (s k : Z) : 0 <= k -> isset s (2 ^ k) = Z.testbit s k.
Proof.
  intros Hk. unfold isset.
  destruct (Z.testbit s k) eqn:E.
  - apply Z.eqb_eq, Z.bits_inj'. intros n Hn.
    rewrite Z.land_spec, Z.pow2_bits_eqb by lia.
    destruct (Z.eqb_spec k n) as [->|_].
    + now rewrite E.
    + apply andb_false_r.
  - apply Z.eqb_neq. intros H.
    assert (H' : Z.testbit (Z.land s (2 ^ k)) k = Z.testbit (2 ^ k) k)
      by now rewrite H.
    rewrite Z.land_spec, Z.pow2_bits_true, E in H' by lia.
    discriminate.
Qed.

Lemma isset_set (s j k : Z) :
  0 <= j -> 0 <= k ->
  isset (Z.lor s (2 ^ j)) (2 ^ k) = isset s (2 ^ k) || (j =? k).
Proof.
  intros Hj Hk. rewrite !isset_bit by lia.
  now rewrite Z.lor_spec, Z.pow2_bits_eqb.
Qed.

Lemma isset_unset (s j k : Z) :
  0 <= j -> 0 <= k ->
  isset (Z.land s (Z.lnot (2 ^ j))) (2 ^ k) = isset s (2 ^ k) && negb (j =? k).
Proof.
  intros Hj Hk. rewrite !isset_bit by lia.
  now rewrite Z.land_spec, Z.lnot_spec, Z.pow2_bits_eqb by lia.
Qed.

Lemma isset_lor (s a b : Z) :
  isset s (Z.lor a b) = isset s a && isset s b.
Proof.
  unfold isset.
  destruct (Z.eqb_spec (Z.land s a) a) as [Ha|Ha];
    destruct (Z.eqb_spec (Z.land s b) b) as [Hb|Hb]; simpl.
  - apply Z.eqb_eq. now rewrite Z.land_lor_distr_r, Ha, Hb.
  - apply Z.eqb_neq. intros H. apply Hb, Z.bits_inj'. intros n Hn.
    apply (f_equal (fun z => Z.testbit z n)) in H.
    rewrite Z.land_spec, Z.lor_spec in H. rewrite Z.land_spec.
    destruct (Z.testbit s n), (Z.testbit a n), (Z.testbit b n);
      simpl in *; congruence.
  - apply Z.eqb_neq. intros H. apply Ha, Z.bits_inj'. intros n Hn.
    apply (f_equal (fun z => Z.testbit z n)) in H.
    rewrite Z.land_spec, Z.lor_spec in H. rewrite Z.land_spec.
    destruct (Z.testbit s n), (Z.testbit a n), (Z.testbit b n);
      simpl in *; congruence.
  - apply Z.eqb_neq. intros H. apply Ha, Z.bits_inj'. intros n Hn.
    apply (f_equal (fun z => Z.testbit z n)) in H.
    rewrite Z.land_spec, Z.lor_spec in H. rewrite Z.land_spec.
    destruct (Z.testbit s n), (Z.testbit a n), (Z.testbit b n);
      simpl in *; congruence.
Qed.

Lemma flag_connected : status_client_connected = 2 ^ 0.
Proof. reflexivity. Qed.
Lemma flag_started : status_client_started = 2 ^ 1.
Proof. reflexivity. Qed.
Lemma flag_client_init : status_client_received_init = 2 ^ 2.
Proof. reflexivity. Qed.
Lemma flag_server_init : status_server_received_init = 2 ^ 3.
Proof. reflexivity. Qed.
Lemma flag_reconnecting : status_client_reconnecting = 2 ^ 4.
Proof. reflexivity. Qed.

(** Rewrites a goal about named flags into one about the flags of the
    initial mask. *)
Ltac flags :=
  rewrite ?flag_connected, ?flag_started, ?flag_client_init,
    ?flag_server_init, ?flag_reconnecting in *;
  repeat (rewrite ?isset_set, ?isset_unset in * by lia);
  cbn [Z.eqb Pos.eqb negb] in *;
  rewrite ?orb_false_r, ?orb_true_r, ?andb_true_r, ?andb_false_r in *.

(** ** Invariants of monadic code *)

Definition preserves {S A : Type} (I : S -> Prop) (m : M S A) : Prop :=
  forall s, I s -> I (snd (m s)).

Lemma preserves_ret {S A} (I : S -> Prop) (a : A) : preserves I (ret a).
Proof. intros s H. exact H. Qed.

Lemma preserves_out_of_fuel {S A} (I : S -> Prop) :
  preserves I (@out_of_fuel S A).
Proof. intros s H. exact H. Qed.

Lemma preserves_gets {S A} (I : S -> Prop) (f : S -> A) : preserves I (gets f).
Proof. intros s H. exact H. Qed.

Lemma preserves_bind {S A B} (I : S -> Prop) (m : M S A) (f : A -> M S B) :
  preserves I m -> (forall a, preserves I (f a)) -> preserves I (bind m f).
Proof.
  intros Hm Hf s H. unfold bind.
  specialize (Hm s H). destruct (m s) as [[a|] s']; cbn in *.
  - now apply Hf.
  - exact Hm.
Qed.

Lemma bind_pure {S A B} (m : M S A) (f : A -> M S B) (s : S) (a : A) :
  m s = (Some a, s) -> bind m f s = f a s.
Proof. intros H. unfold bind. now rewrite H. Qed.

Lemma snd_bind {S A B} (m : M S A) (f : A -> M S B) (s : S) :
  snd (bind m f s)
  = match fst (m s) with
    | Some a => snd (f a (snd (m s)))
    | None => snd (m s)
    end.
Proof. unfold bind. now destruct (m s) as [[a|] s']. Qed.

Lemma fst_bind {S A B} (m : M S A) (f : A -> M S B) (s : S) :
  fst (bind m f s)
  = match fst (m s) with
    | Some a => fst (f a (snd (m s)))
    | None => None
    end.
Proof. unfold bind. now destruct (m s) as [[a|] s']. Qed.

(** Breaks a goal [preserves I m] along the structure of [m], leaving the
    primitives to the hints of [preserve]. *)
Create HintDb preserve.

Ltac preserve_step :=
  match goal with
  | |- preserves _ (bind _ _) => apply preserves_bind; [|intros]
  | |- preserves _ (ret _) => apply preserves_ret
  | |- preserves _ out_of_fuel => apply preserves_out_of_fuel
  | |- preserves _ (gets _) => apply preserves_gets
  | |- preserves _ (match ?x with (_, _) => _ end) => destruct x
  | |- preserves _ (if ?b then _ else _) => destruct b
  | |- preserves _ (match ?x with handled => _ | _ => _ end) => destruct x
  | |- preserves _ _ => solve [auto with preserve]
  end.

Ltac preserve := repeat preserve_step.

Section Invariant.

Context {T N C : Type}.
Context {transport : communication_server T}.
Context {natives : natives_map N}.
Context {callbacks : callbacks_map C}.
Context {version : version_h}.

Local Abbreviation server := (server T N C).

(** An invariant that no collaborator and no buffer content can break, that
    survives every event but a heartbeat frame and every change of a flag the
    graceful paths make; [client_received_init] may be set where
    [client_started] is. *)
Variable I : server -> Prop.

Hypothesis I_communication : forall t s, I s -> I (with_communication t s).
Hypothesis I_natives : forall n s, I s -> I (with_natives n s).
Hypothesis I_callbacks : forall c s, I s -> I (with_callbacks c s).
Hypothesis I_buf : forall b s, I s -> I (with_buf b s).
Hypothesis I_emit :
  forall e, is_sent CMD_TICK (0, e) = false -> preserves I (emit e).
Hypothesis I_set :
  forall v,
    In v [status_client_connected; status_client_started;
          status_server_received_init; status_client_reconnecting] ->
    preserves I (STATUS_SET v).
Hypothesis I_unset :
  forall v,
    In v [status_client_connected; status_server_received_init;
          status_client_reconnecting] ->
    preserves I (STATUS_UNSET v).
Hypothesis I_set_init :
  forall s, I s -> isset (status_ s) status_client_started = true ->
            I (snd (STATUS_SET status_client_received_init s)).

Lemma preserves_emit_quiet e :
  is_sent CMD_TICK (0, e) = false -> preserves I (emit e).
Proof. apply I_emit. Qed.

Lemma preserves_log_error text : preserves I (log_error text).
Proof. now apply I_emit. Qed.

Lemma preserves_log_info text : preserves I (log_info text).
Proof. now apply I_emit. Qed.

Lemma preserves_print text : preserves I (print text).
Proof. now apply I_emit. Qed.

Lemma preserves_rcon command : preserves I (sampgdk_SendRconCommand command).
Proof. now apply I_emit. Qed.

Lemma preserves_send cmd data :
  cmd <> CMD_TICK -> preserves I (send cmd data).
Proof.
  intros Hcmd. unfold send. apply preserves_bind.
  - apply I_emit. cbn. now apply Z.eqb_neq.
  - intros _ s H. now apply I_communication.
Qed.

Lemma preserves_isset v : preserves I (STATUS_ISSET v).
Proof. apply preserves_gets. Qed.

Lemma preserves_set_connected : preserves I (STATUS_SET status_client_connected).
Proof. apply I_set. cbn. auto. Qed.
Lemma preserves_set_started : preserves I (STATUS_SET status_client_started).
Proof. apply I_set. cbn. auto. Qed.
Lemma preserves_set_server_init :
  preserves I (STATUS_SET status_server_received_init).
Proof. apply I_set. cbn. auto. Qed.
Lemma preserves_set_reconnecting :
  preserves I (STATUS_SET status_client_reconnecting).
Proof. apply I_set. cbn. auto 6. Qed.
Lemma preserves_unset_connected :
  preserves I (STATUS_UNSET status_client_connected).
Proof. apply I_unset. cbn. auto. Qed.
Lemma preserves_unset_server_init :
  preserves I (STATUS_UNSET status_server_received_init).
Proof. apply I_unset. cbn. auto. Qed.
Lemma preserves_unset_reconnecting :
  preserves I (STATUS_UNSET status_client_reconnecting).
Proof. apply I_unset. cbn. auto. Qed.

Lemma preserves_transport_setup : preserves I transport_setup.
Proof. intros s H. now apply I_communication. Qed.
Lemma preserves_transport_connect : preserves I transport_connect.
Proof. intros s H. now apply I_communication. Qed.
Lemma preserves_transport_disconnect : preserves I transport_disconnect.
Proof. intros s H. now apply I_communication. Qed.
Lemma preserves_transport_receive : preserves I transport_receive.
Proof.
  intros s H. unfold transport_receive.
  destruct (fst (comm_receive (communication_ s))) as [[stat cmd] payload].
  now apply I_buf, I_communication.
Qed.
Lemma preserves_get_handle buf : preserves I (natives_call_get_handle buf).
Proof. intros s H. now apply I_natives. Qed.
Lemma preserves_invoke buf buflen :
  preserves I (natives_call_invoke buf buflen).
Proof. intros s H. now apply I_buf, I_natives. Qed.
Lemma preserves_fill_call_buffer amx name params :
  preserves I (fill_call_buffer amx name params).
Proof. intros s H. now apply I_buf. Qed.

Hint Resolve preserves_log_error preserves_log_info preserves_print
  preserves_rcon preserves_isset preserves_set_connected
  preserves_set_started preserves_set_server_init preserves_set_reconnecting
  preserves_unset_connected preserves_unset_server_init
  preserves_unset_reconnecting preserves_transport_setup
  preserves_transport_connect preserves_transport_disconnect
  preserves_transport_receive preserves_get_handle preserves_invoke
  preserves_fill_call_buffer : preserve.

Lemma preserves_is_client_connected : preserves I is_client_connected.
Proof. unfold is_client_connected. preserve. Qed.

Lemma preserves_cmd_send_announce : preserves I cmd_send_announce.
Proof.
  unfold cmd_send_announce. preserve. now apply preserves_send.
Qed.

Hint Resolve preserves_is_client_connected preserves_cmd_send_announce
  : preserve.

Lemma preserves_connect : preserves I connect.
Proof. unfold connect. preserve. Qed.

Lemma preserves_expected_disconnect context :
  preserves I (disconnect context true).
Proof. unfold disconnect. cbn [negb]. preserve. Qed.

Hint Resolve preserves_connect preserves_expected_disconnect : preserve.

Lemma preserves_cmd_ping buf buflen : preserves I (cmd_ping buf buflen).
Proof. now apply preserves_send. Qed.

Lemma preserves_cmd_print buf buflen : preserves I (cmd_print buf buflen).
Proof. unfold cmd_print. preserve. Qed.

Lemma preserves_cmd_register_call buf buflen :
  preserves I (cmd_register_call buf buflen).
Proof. intros s H. now apply I_callbacks. Qed.

Lemma preserves_cmd_find_native buf buflen :
  preserves I (cmd_find_native buf buflen).
Proof. unfold cmd_find_native. preserve. now apply preserves_send. Qed.

Lemma preserves_cmd_invoke_native buf buflen :
  preserves I (cmd_invoke_native buf buflen).
Proof. unfold cmd_invoke_native. preserve. now apply preserves_send. Qed.

Lemma preserves_cmd_reconnect buf buflen :
  preserves I (cmd_reconnect buf buflen).
Proof. unfold cmd_reconnect. preserve. Qed.

Hint Resolve preserves_cmd_ping preserves_cmd_print
  preserves_cmd_register_call preserves_cmd_find_native
  preserves_cmd_invoke_native preserves_cmd_reconnect : preserve.

(** Turns a goal about the state a computation reaches into [preserves]. *)
Ltac by_preservation :=
  match goal with
  | H : I ?s |- I (snd (?m ?s)) =>
      cut (preserves I m); [intros Hp; exact (Hp s H)|]
  end.

Lemma preserves_cmd_start drain buf buflen :
  preserves I drain -> preserves I (cmd_start drain buf buflen).
Proof.
  intros Hd s Hs. unfold cmd_start.
  rewrite snd_bind. cbn [log_info vlog emit modify fst snd].
  rewrite snd_bind. cbn [STATUS_SET modify fst snd].
  match goal with |- I (snd (_ ?s1)) => set (st := s1) end.
  assert (Hst : I st)
    by (apply preserves_set_started, preserves_log_info, Hs).
  assert (Hstarted : isset (status_ st) status_client_started = true)
    by (cbn; flags; reflexivity).
  clearbody st. cbv zeta.
  repeat split_if; try exact Hst.
  - by_preservation. preserve.
  - rewrite snd_bind. cbn [STATUS_ISSET gets fst snd].
    destruct (isset (status_ st) status_server_received_init);
      [|exact Hst].
    rewrite snd_bind.
    pose proof (I_set_init st Hst Hstarted) as Hinit.
    cbn [STATUS_SET modify fst snd] in *.
    by_preservation. preserve. now apply preserves_send.
  - by_preservation. preserve.
Qed.

Lemma preserves_cmd_process drain cmd buf buflen resp resplen :
  preserves I drain ->
  preserves I (cmd_process drain cmd buf buflen resp resplen).
Proof.
  intros Hd. unfold cmd_process. preserve. now apply preserves_cmd_start.
Qed.

Lemma preserves_cmd_receive_one drain response len :
  preserves I drain -> preserves I (cmd_receive_one drain response len).
Proof.
  intros Hd. unfold cmd_receive_one. preserve;
    now apply preserves_cmd_process.
Qed.

Lemma preserves_cmd_receive_unhandled fuel :
  preserves I (cmd_receive_unhandled fuel).
Proof.
  induction fuel as [|fuel IH]; cbn [cmd_receive_unhandled].
  - apply preserves_out_of_fuel.
  - preserve. now apply preserves_cmd_receive_one.
Qed.

Hint Resolve preserves_cmd_receive_unhandled : preserve.

Lemma preserves_tick_receive fuel response len :
  preserves I (tick_receive fuel response len).
Proof.
  revert response len.
  induction fuel as [|fuel IH]; intros response len; cbn [tick_receive].
  - apply preserves_out_of_fuel.
  - apply preserves_bind;
      [apply preserves_cmd_receive_one; auto with preserve|].
    intros [[stat resp] l]. destruct resp as [block|].
    + apply preserves_bind; [auto with preserve|intros _].
      destruct (is_released block); [apply preserves_ret|].
      destruct stat; try apply preserves_ret; apply IH.
    + destruct stat; try apply preserves_ret; apply IH.
Qed.

Lemma preserves_public_call_receive name retval r :
  preserves I (public_call_receive name retval r).
Proof.
  unfold public_call_receive. destruct r as [[ok response] len]. preserve.
Qed.

Lemma is_client_connected_eq (s : server) :
  is_client_connected s
  = (Some (comm_is_connected (communication_ s) &&
           isset (status_ s) status_client_connected), s).
Proof. reflexivity. Qed.

Lemma set_then_true v (s : server) :
  (STATUS_SET v;; ret true) s
  = (Some true, with_status (Z.lor (status_ s) v) s).
Proof. reflexivity. Qed.

Lemma preserves_public_call_send amx name params :
  preserves I (public_call_send amx name params).
Proof.
  intros s Hs. unfold public_call_send. cbv zeta.
  rewrite snd_bind.
  match goal with
  | |- context [fst (?m s)] =>
      assert (exists s0, m s = (Some tt, s0) /\ I s0) as (s0 & E & Hs0)
  end.
  { repeat split_if; eexists; (split; [reflexivity|]).
    - now apply preserves_set_server_init.
    - now apply preserves_unset_server_init.
    - exact Hs. }
  rewrite E. cbn [fst snd]. clear E.
  rewrite snd_bind, is_client_connected_eq. cbn [fst snd].
  rewrite snd_bind. cbn [STATUS_ISSET gets fst snd].
  destruct (isset (status_ s0) status_client_started) eqn:Hstarted;
    [|rewrite orb_true_r; exact Hs0].
  split_if; [exact Hs0|].
  rewrite snd_bind.
  destruct (name =? "OnGameModeInit")%string.
  - rewrite set_then_true. cbn [fst snd negb].
    pose proof (I_set_init s0 Hs0 Hstarted) as Hinit.
    cbn [STATUS_SET modify fst snd] in Hinit.
    by_preservation. preserve. now apply preserves_send.
  - cbn [STATUS_ISSET gets fst snd].
    split_if; [exact Hs0|].
    by_preservation. preserve. now apply preserves_send.
Qed.

Lemma preserves_public_call fuel amx name params retval :
  preserves I (public_call fuel amx name params retval).
Proof.
  unfold public_call. preserve.
  - apply preserves_public_call_send.
  - apply preserves_public_call_receive.
Qed.

End Invariant.

Section Properties.

Context {T N C : Type}.
Context {transport : communication_server T}.
Context {natives : natives_map N}.
Context {callbacks : callbacks_map C}.
Context {version : version_h}.

Local Abbreviation server := (server T N C).
Local Abbreviation consistent := (@consistent T N C).

(** *** The init flags *)

Lemma consistent_set (v : Z) :
  In v [status_client_connected; status_client_started;
        status_server_received_init; status_client_reconnecting] ->
  preserves consistent (STATUS_SET v).
Proof.
  intros Hin s H. unfold consistent, init_implies_started in *.
  cbn [STATUS_SET modify snd status_ with_status].
  cbn [In] in Hin.
  destruct Hin as [<-|[<-|[<-|[<-|[]]]]]; flags; try exact H.
  apply implb_true_r.
Qed.

Lemma consistent_unset (v : Z) :
  In v [status_client_connected; status_server_received_init;
        status_client_reconnecting] ->
  preserves consistent (STATUS_UNSET v).
Proof.
  intros Hin s H. unfold consistent, init_implies_started in *.
  cbn [STATUS_UNSET modify snd status_ with_status].
  cbn [In] in Hin.
  destruct Hin as [<-|[<-|[<-|[]]]]; flags; exact H.
Qed.

Lemma consistent_set_init (s : server) :
  consistent s -> isset (status_ s) status_client_started = true ->
  consistent (snd (STATUS_SET status_client_received_init s)).
Proof.
  intros _ H. unfold consistent, init_implies_started.
  cbn [STATUS_SET modify snd status_ with_status].
  flags. rewrite H. apply implb_true_r.
Qed.

(** Discharges the side conditions of the lemmas of [Invariant] for
    [consistent], which looks at the status only. *)
Ltac consistent_side :=
  first [ exact consistent_set
        | exact consistent_unset
        | exact consistent_set_init
        | let H := fresh in intros ? ? H; exact H
        | let H := fresh in intros ? ? ? H; exact H ].

Lemma tick_heartbeat_status (s : server) :
  status_ (snd (tick_heartbeat s)) = status_ s.
Proof.
  unfold tick_heartbeat.
  rewrite snd_bind, is_client_connected_eq. cbn [fst snd].
  rewrite snd_bind. cbn [STATUS_ISSET gets fst snd].
  now split_if.
Qed.

Lemma consistent_run fuel o (s : server) :
  no_unexpected_disconnect o = true ->
  consistent s -> consistent (run fuel o s).
Proof.
  intros Ho H. destruct o; cbn [run].
  - revert s H. apply preserves_connect; consistent_side.
  - cbn in Ho. subst expected. revert s H.
    apply preserves_expected_disconnect; consistent_side.
  - revert s H. apply preserves_cmd_start; try consistent_side.
    apply preserves_cmd_receive_unhandled; consistent_side.
  - revert s H. apply preserves_cmd_reconnect; consistent_side.
  - revert s H. apply preserves_public_call; consistent_side.
  - unfold tick. rewrite snd_bind.
    assert (H' : consistent (snd (tick_heartbeat s)))
      by (unfold consistent; now rewrite tick_heartbeat_status).
    destruct (fst (tick_heartbeat s)); [|exact H'].
    revert H'. generalize (snd (tick_heartbeat s)).
    apply preserves_tick_receive; consistent_side.
Qed.

(** X24: where the init flags stay consistent.  In every state that
    [connect], an expected [disconnect], [cmd_start], [cmd_reconnect],
    [public_call] and [tick] reach from a fresh server,
    [client_received_init] is not set while [client_started] is unset. *)
Theorem init_implies_started_reachable communication n c mem (s : server) :
  reachable_by no_unexpected_disconnect (server_new communication n c mem) s ->
  init_implies_started (status_ s) = true.
Proof.
  intros Hreach.
  induction Hreach as [|s fuel o _ IH Ho].
  - reflexivity.
  - now apply consistent_run.
Qed.

(** *** The heartbeat *)

Lemma count_sent_app cmd (tr1 tr2 : list (Z * event)) :
  count_sent cmd (tr1 ++ tr2) = (count_sent cmd tr1 + count_sent cmd tr2)%nat.
Proof. unfold count_sent. now rewrite filter_app, length_app. Qed.

Lemma extends_without_emit tr e :
  is_sent CMD_TICK (0, e) = false ->
  preserves (extends_without CMD_TICK tr) (emit e : M server unit).
Proof.
  intros He s (rest & Htr & Hcount).
  exists (rest ++ [(status_ s, e)]). split.
  - cbn. now rewrite Htr, app_assoc.
  - rewrite count_sent_app, Hcount. unfold count_sent. cbn.
    unfold is_sent in *. cbn in *. now rewrite He.
Qed.

(** Side conditions of the lemmas of [Invariant] for an invariant that looks
    at the trace only. *)
Ltac trace_side :=
  first [ apply extends_without_emit
        | let H := fresh in intros ? ? H; exact H
        | let H := fresh in intros ? H ?; exact H
        | let H := fresh in intros ? ? ? H; exact H ].

Lemma tick_heartbeat_eq (s : server) :
  tick_heartbeat s
  = (Some tt, if heartbeat_due s then snd (send CMD_TICK [] s) else s).
Proof.
  unfold tick_heartbeat, heartbeat_due.
  rewrite (bind_pure _ _ _ _ (is_client_connected_eq s)).
  unfold bind at 1. cbn [STATUS_ISSET gets].
  rewrite isset_lor. now split_if.
Qed.

(** C9: whatever its fuel, a tick starts by handing the heartbeat, a
    [CMD_TICK] frame without payload, to the transport exactly when the
    transport is connected and [client_connected], [client_started] and
    [client_received_init] are all set, and otherwise by doing nothing; the
    receive loop then runs from that state, and nothing it does sends a
    [CMD_TICK] frame. *)
Theorem tick_heartbeat_iff fuel (s : server) :
  let s1 := if heartbeat_due s then snd (send CMD_TICK [] s) else s in
  tick fuel s = tick_receive fuel None 0 s1 /\
  communication_ s1
  = (if heartbeat_due s
     then comm_send CMD_TICK [] (communication_ s)
     else communication_ s) /\
  exists rest,
    trace (snd (tick fuel s))
    = trace s
      ++ (if heartbeat_due s then [(status_ s, Sent CMD_TICK [])] else [])
      ++ rest
    /\ count_sent CMD_TICK rest = O.
Proof.
  intros s1.
  assert (Htick : tick fuel s = tick_receive fuel None 0 s1).
  { unfold tick. unfold bind at 1. now rewrite tick_heartbeat_eq. }
  split; [exact Htick|]. split.
  { subst s1. now destruct (heartbeat_due s). }
  rewrite Htick.
  set (hb := if heartbeat_due s then [(status_ s, Sent CMD_TICK [])] else []).
  assert (H1 : extends_without CMD_TICK (trace s ++ hb) s1).
  { exists []. subst hb s1. split; [|reflexivity].
    destruct (heartbeat_due s); cbn; now rewrite ?app_nil_r. }
  assert (H2 : extends_without CMD_TICK (trace s ++ hb)
                 (snd (tick_receive fuel None 0 s1))).
  { revert H1. generalize s1.
    apply preserves_tick_receive; trace_side. }
  destruct H2 as (rest & Htr & Hcount).
  exists rest. now rewrite Htr, app_assoc.
Qed.

(** *** Public calls *)

Lemma copy_written (data buf : list Z) :
  copy_bytes (write_buf data buf) (Z.of_nat (List.length data)) = data.
Proof.
  unfold copy_bytes, write_buf. rewrite Nat2Z.id.
  rewrite firstn_app, firstn_all, Nat.sub_diag. cbn. apply app_nil_r.
Qed.

Lemma public_call_unfold fuel amx name params retval (s s1 : server) :
  public_call_send amx name params s = (Some true, s1) ->
  public_call fuel amx name params retval s
  = bind (cmd_receive_unhandled fuel) (public_call_receive name retval) s1.
Proof.
  intros H. unfold public_call. unfold bind at 1. now rewrite H.
Qed.

Lemma cmd_receive_unhandled_extends fuel (s : server) :
  extends_without CMD_TICK (trace s) (snd (cmd_receive_unhandled fuel s)).
Proof.
  set (tr := trace s).
  assert (H : extends_without CMD_TICK tr s)
    by (exists []; subst tr; now rewrite app_nil_r).
  clearbody tr. revert s H.
  apply preserves_cmd_receive_unhandled; trace_side.
Qed.

(** What [public_call_receive] adds to the trace, exactly. *)
Lemma public_call_receive_tail name retval r (s : server) :
  trace (snd (public_call_receive name retval r s))
  = trace s ++ error_tail name (Some r) s.
Proof.
  destruct r as [[ok response] len].
  unfold public_call_receive, error_tail, no_reply.
  destruct (negb ok || is_null response || (len =? 0)).
  - reflexivity.
  - rewrite app_nil_r. now split_if.
Qed.

Lemma public_call_send_init amx params (s : server) :
  comm_is_connected (communication_ s) = true ->
  isset (status_ s) status_client_connected = true ->
  isset (status_ s) status_client_started = true ->
  let data :=
    callbacks_fill_call_buffer amx "OnGameModeInit" params (callbacks_ s) in
  let st := Z.lor (Z.lor (status_ s) status_server_received_init)
                  status_client_received_init in
  let s0 := with_buf (write_buf data (buf_ s)) (with_status st s) in
  public_call_send amx "OnGameModeInit" params s
  = match data with
    | [] => (Some false, s0)
    | _ => (Some true, snd (send CMD_PUBLIC_CALL data s0))
    end.
Proof.
  intros Hlink Hconn Hstarted data st s0.
  unfold public_call_send. cbv zeta.
  change ("OnGameModeInit" =? "OnGameModeInit")%string with true.
  cbn [negb andb].
  unfold bind at 1. cbn [STATUS_SET modify].
  rewrite (bind_pure _ _ _ _ (is_client_connected_eq _)).
  unfold bind at 1. cbn [STATUS_ISSET gets status_ with_status communication_].
  replace (isset (Z.lor (status_ s) status_server_received_init)
             status_client_connected) with true by (flags; now rewrite Hconn).
  replace (isset (Z.lor (status_ s) status_server_received_init)
             status_client_started) with true by (flags; now rewrite Hstarted).
  rewrite Hlink. cbn [negb andb orb].
  unfold bind at 1. rewrite set_then_true. cbn [negb].
  unfold bind at 1.
  cbn [fill_call_buffer callbacks_ with_status buf_ status_].
  fold data. fold st.
  destruct data as [|b data'] eqn:Edata.
  - reflexivity.
  - cbn [List.length]. rewrite Nat2Z.inj_succ.
    replace (Z.succ (Z.of_nat (List.length data')) =? 0) with false
      by (symmetry; apply Z.eqb_neq; lia).
    unfold bind at 1. cbn [gets buf_ with_buf].
    rewrite <- Nat2Z.inj_succ.
    change (S (List.length data')) with (List.length (b :: data')).
    rewrite copy_written.
    reflexivity.
Qed.

(** C3, as the code has it: a public call for game-mode-init made while the
    client is connected and started sets [client_received_init]; when the
    Callback Registry serialises the call to nothing, it sends no frame; when
    not, it sends one public-call notification, with [client_received_init]
    already set, and then drains.  Its trace is the notification, then what
    the drain adds (the answers of the handlers it runs, a nested init
    notification among them when the client restarts with mode 2), then the
    error line if the drain came back without a reply, and nothing else. *)
Theorem public_call_init_sends fuel amx params retval (s : server) :
  comm_is_connected (communication_ s) = true ->
  isset (status_ s) status_client_connected = true ->
  isset (status_ s) status_client_started = true ->
  let name := "OnGameModeInit"%string in
  let data := callbacks_fill_call_buffer amx name params (callbacks_ s) in
  let st := Z.lor (Z.lor (status_ s) status_server_received_init)
                  status_client_received_init in
  let s0 := with_buf (write_buf data (buf_ s)) (with_status st s) in
  let s1 := snd (send CMD_PUBLIC_CALL data s0) in
  isset st status_client_received_init = true /\
  match data with
  | [] => public_call fuel amx name params retval s = (Some retval, s0)
  | _ =>
      public_call fuel amx name params retval s
      = bind (cmd_receive_unhandled fuel) (public_call_receive name retval) s1
      /\ trace s1 = trace s ++ [(st, Sent CMD_PUBLIC_CALL data)]
      /\ exists rest tail,
          trace (snd (cmd_receive_unhandled fuel s1)) = trace s1 ++ rest /\
          trace (snd (public_call fuel amx name params retval s))
          = trace s ++ [(st, Sent CMD_PUBLIC_CALL data)] ++ rest ++ tail /\
          count_sent CMD_PUBLIC_CALL tail = O /\
          tail = error_tail name (fst (cmd_receive_unhandled fuel s1))
                            (snd (cmd_receive_unhandled fuel s1))
  end.
Proof.
  intros Hlink Hconn Hstarted name data st s0 s1.
  pose proof (public_call_send_init amx params s Hlink Hconn Hstarted) as Hsend.
  cbv zeta in Hsend. fold name data st s0 in Hsend.
  split; [subst st; now flags|].
  destruct data as [|b data'] eqn:Edata.
  - unfold public_call. unfold bind at 1. now rewrite Hsend.
  - fold s1 in Hsend.
    pose proof (public_call_unfold fuel amx name params retval s s1 Hsend)
      as Hcall.
    split; [exact Hcall|]. split; [reflexivity|].
    destruct (cmd_receive_unhandled_extends fuel s1) as (rest & Hrest & _).
    rewrite Hcall, snd_bind.
    destruct (fst (cmd_receive_unhandled fuel s1)) as [r|].
    + pose proof (public_call_receive_tail name retval r
                    (snd (cmd_receive_unhandled fuel s1))) as Htail.
      exists rest, (error_tail name (Some r)
                               (snd (cmd_receive_unhandled fuel s1))).
      split; [exact Hrest|]. split; [|split; [|reflexivity]].
      * rewrite Htail, Hrest. change (trace s1) with
          (trace s ++ [(st, Sent CMD_PUBLIC_CALL (b :: data'))]).
        now rewrite <- !app_assoc.
      * unfold error_tail. now destruct (no_reply r).
    + exists rest, []. split; [exact Hrest|].
      split; [|split; reflexivity].
      rewrite Hrest. change (trace s1) with
        (trace s ++ [(st, Sent CMD_PUBLIC_CALL (b :: data'))]).
      now rewrite app_nil_r, <- !app_assoc.
Qed.

(** C7: [connect] on a server whose transport is already connected returns
    true and leaves the whole server, trace included, as it was: no
    announcement, no flag changed. *)
Theorem connect_idempotent (s : server) :
  comm_is_connected (communication_ s) = true ->
  connect s = (Some true, s).
Proof.
  intros H. unfold connect, bind, gets. now rewrite H.
Qed.

(** Handlers other than [cmd_start] always return. *)
Lemma disconnect_returns context expected (s : server) :
  fst (disconnect context expected s) = Some tt.
Proof.
  unfold disconnect, bind, is_client_connected, bind, gets, STATUS_ISSET, gets,
    ret.
  destruct (comm_is_connected (communication_ s) &&
            isset (status_ s) status_client_connected); simpl; [|reflexivity].
  destruct expected; reflexivity.
Qed.

Lemma cmd_reconnect_returns buf buflen (s : server) :
  fst (cmd_reconnect buf buflen s) = Some tt.
Proof.
  unfold cmd_reconnect, bind; simpl. apply disconnect_returns.
Qed.

(** C4, as the code has it: [disconnect] does nothing unless the client is
    considered connected.  When it is, the transport is torn down and set up
    again and [client_connected] is cleared; an unexpected disconnect also
    clears [client_started] and leaves both registries empty, an expected one
    leaves the registries and every other flag as they were. *)
Theorem disconnect_effect context expected (s : server) :
  let s' := snd (disconnect context expected s) in
  fst (disconnect context expected s) = Some tt /\
  if comm_is_connected (communication_ s) &&
     isset (status_ s) status_client_connected
  then
    communication_ s' = snd (comm_setup (comm_disconnect (communication_ s))) /\
    isset (status_ s') status_client_connected = false /\
    buf_ s' = buf_ s /\
    if expected then
      natives_ s' = natives_ s /\
      callbacks_ s' = callbacks_ s /\
      status_ s' = Z.land (status_ s) (Z.lnot status_client_connected) /\
      isset (status_ s') status_client_started
      = isset (status_ s) status_client_started
    else
      isset (status_ s') status_client_started = false /\
      natives_is_empty (natives_ s') = true /\
      callbacks_is_empty (callbacks_ s') = true
  else s' = s.
Proof.
  split; [apply disconnect_returns|].
  unfold disconnect, bind, is_client_connected, bind, gets, STATUS_ISSET, gets,
    ret.
  destruct (comm_is_connected (communication_ s) &&
            isset (status_ s) status_client_connected); simpl; [|reflexivity].
  destruct expected; simpl.
  - repeat split; flags; reflexivity.
  - repeat split; flags; auto using natives_clear_is_empty,
      callbacks_clear_is_empty.
Qed.

(** *** The dispatcher *)

Lemma cmd_process_cases drain cmd buf buflen resp resplen (s : server) :
  match cmd_process drain cmd buf buflen resp resplen s with
  | (Some (stat, r, l), s') =>
      if is_mapped cmd then stat = handled /\ r = resp /\ l = resplen
      else stat = unhandled /\ s' = s /\
           if 0 <? buflen
           then r = Some (copy_bytes buf buflen) /\ l = buflen
           else r = resp /\ l = resplen
  | (None, _) => cmd = CMD_START /\ fst (cmd_start drain buf buflen s) = None
  end.
Proof.
  unfold cmd_process, is_mapped, mapped_commands, existsb.
  destruct (Z.eqb_spec cmd CMD_PING); [now cbn|].
  destruct (Z.eqb_spec cmd CMD_PRINT); [now cbn|].
  destruct (Z.eqb_spec cmd CMD_REGISTER_CALL); [now cbn|].
  destruct (Z.eqb_spec cmd CMD_FIND_NATIVE); [now cbn|].
  destruct (Z.eqb_spec cmd CMD_INVOKE_NATIVE); [now cbn|].
  destruct (Z.eqb_spec cmd CMD_RECONNECT).
  { unfold bind at 1.
    destruct (cmd_reconnect buf buflen s) as [[[]|] s'] eqn:E;
      [now cbn|].
    pose proof (cmd_reconnect_returns buf buflen s) as R.
    rewrite E in R. discriminate. }
  destruct (Z.eqb_spec cmd CMD_START).
  { unfold bind at 1.
    destruct (cmd_start drain buf buflen s) as [[[]|] s'] eqn:E; now cbn. }
  cbn. destruct (0 <? buflen); cbn; auto.
Qed.

Lemma cmd_process_unmapped drain cmd buf buflen resp resplen (s : server) :
  is_mapped cmd = false ->
  cmd_process drain cmd buf buflen resp resplen s
  = (Some (unhandled,
           if 0 <? buflen then Some (copy_bytes buf buflen) else resp,
           if 0 <? buflen then buflen else resplen), s).
Proof.
  intros Hcmd.
  pose proof (cmd_process_cases drain cmd buf buflen resp resplen s) as H.
  rewrite Hcmd in H.
  destruct (cmd_process drain cmd buf buflen resp resplen s)
    as [[[[stat r] l]|] s'].
  - destruct H as (-> & -> & H).
    destruct (0 <? buflen); now destruct H as [-> ->].
  - destruct H as [-> _]. discriminate.
Qed.

Lemma cmd_process_mapped drain cmd buf buflen resp resplen (s s' : server)
  stat r l :
  is_mapped cmd = true ->
  cmd_process drain cmd buf buflen resp resplen s = (Some (stat, r, l), s') ->
  stat = handled /\ r = resp /\ l = resplen.
Proof.
  intros Hcmd E.
  pose proof (cmd_process_cases drain cmd buf buflen resp resplen s) as H.
  now rewrite E, Hcmd in H.
Qed.

(** C2, as the code has it: the commands [cmd_process] reports as handled are
    the request identifiers other than [CMD_RESPONSE]; [CMD_RESPONSE] and
    every identifier outside the request set are unhandled and leave the
    server as it was.  For an unhandled command of non-zero length the caller
    gets a copy of the first [buflen] bytes of the payload and [buflen] as
    length; for length zero both of the caller's slots stay as they were.
    Only [cmd_start], waiting for an answer, can fail to return. *)
Theorem cmd_process_classifies drain cmd buf buflen resp resplen (s : server) :
  match cmd_process drain cmd buf buflen resp resplen s with
  | (Some (stat, r, l), s') =>
      if is_mapped cmd then stat = handled /\ r = resp /\ l = resplen
      else stat = unhandled /\ s' = s /\
           if 0 <? buflen
           then r = Some (copy_bytes buf buflen) /\ l = buflen
           else r = resp /\ l = resplen
  | (None, _) => cmd = CMD_START /\ fst (cmd_start drain buf buflen s) = None
  end
  /\ (is_mapped cmd = true <-> In cmd request_commands /\ cmd <> CMD_RESPONSE)
  /\ (0 <= buflen <= Z.of_nat (List.length buf) ->
      Z.of_nat (List.length (copy_bytes buf buflen)) = buflen /\
      forall i, (i < Z.to_nat buflen)%nat ->
                nth i (copy_bytes buf buflen) 0 = nth i buf 0).
Proof.
  split; [|split].
  - apply cmd_process_cases.
  - unfold is_mapped, mapped_commands, request_commands, CMD_RESPONSE,
      CMD_PING, CMD_PRINT, CMD_REGISTER_CALL, CMD_FIND_NATIVE,
      CMD_INVOKE_NATIVE, CMD_RECONNECT, CMD_START.
    cbn [existsb In]. rewrite !orb_true_iff, !Z.eqb_eq. lia.
  - intros Hlen. unfold copy_bytes. split.
    + rewrite firstn_length_le by lia. lia.
    + intros i Hi. now rewrite nth_firstn, (proj2 (Nat.ltb_lt _ _) Hi).
Qed.

(** C8: a public call for an event other than game-mode-init, made while
    [client_received_init] is unset, returns with the return-value slot as it
    was, sends nothing (the trace does not grow) and changes nothing in the
    server but [server_received_init], cleared on game-mode-exit. *)
Theorem public_call_before_init fuel amx name params retval (s : server) :
  name <> "OnGameModeInit"%string ->
  isset (status_ s) status_client_received_init = false ->
  public_call fuel amx name params retval s =
  (Some retval,
   if (name =? "OnGameModeExit")%string
   then with_status
          (Z.land (status_ s) (Z.lnot status_server_received_init)) s
   else s).
Proof.
  intros Hname Hinit. apply String.eqb_neq in Hname.
  unfold public_call, public_call_send. rewrite Hname. cbn [negb andb].
  unfold bind, is_client_connected, bind, gets, STATUS_ISSET, gets, ret.
  destruct (name =? "OnGameModeExit")%string; cbn;
    repeat (split_if; cbn; try reflexivity);
    flags; rewrite Hinit in *; discriminate.
Qed.

(** *** Pulling commands *)

Lemma connect_returns (s : server) :
  exists ok sc, connect s = (Some ok, sc).
Proof.
  unfold connect, bind, gets, ret, transport_setup, transport_connect,
    STATUS_SET, STATUS_ISSET, STATUS_UNSET, log_info, vlog,
    cmd_send_announce, send, emit, bind, modify, gets.
  repeat split_if; cbn; repeat split_if; eauto.
Qed.

Lemma cmd_receive_one_dead drain response len (s sc : server) :
  connect s = (Some false, sc) ->
  cmd_receive_one drain response len s = (Some (conn_dead, response, len), sc).
Proof.
  intros H. unfold cmd_receive_one. unfold bind at 1. now rewrite H.
Qed.

Lemma cmd_receive_one_eq drain response len (s sc : server)
  stat cmd payload t :
  connect s = (Some true, sc) ->
  comm_receive (communication_ sc) = ((stat, cmd, payload), t) ->
  let sr := with_buf (write_buf payload (buf_ sc)) (with_communication t sc) in
  cmd_receive_one drain response len s
  = match stat with
    | conn_dead | no_cmd => (Some (stat, response, len), sr)
    | _ => cmd_process drain cmd (write_buf payload (buf_ sc))
                       (Z.of_nat (List.length payload)) response len sr
    end.
Proof.
  intros Hc Hr sr. unfold cmd_receive_one.
  unfold bind at 1. rewrite Hc. cbn [negb].
  unfold bind at 1. unfold transport_receive. rewrite Hr. cbn [fst snd].
  fold sr. now destruct stat.
Qed.

Lemma cmd_receive_one_reply drain (s s' : server) stat response len :
  cmd_receive_one drain None 0 s = (Some (stat, response, len), s') ->
  well_formed_reply response len.
Proof.
  destruct (connect_returns s) as (ok & sc & Hc). destruct ok.
  - destruct (comm_receive (communication_ sc)) as [[[st cmd] payload] t] eqn:Hr.
    rewrite (cmd_receive_one_eq drain None 0 s sc st cmd payload t Hc Hr).
    cbv zeta.
    assert (Hp : forall x,
              cmd_process drain cmd (write_buf payload (buf_ sc))
                (Z.of_nat (List.length payload)) None 0 x
              = (Some (stat, response, len), s') ->
              well_formed_reply response len).
    { intros x E. destruct (is_mapped cmd) eqn:Hm.
      - apply (cmd_process_mapped _ _ _ _ _ _ _ _ _ _ _ Hm) in E.
        now destruct E as (_ & -> & ->).
      - rewrite (cmd_process_unmapped _ _ _ _ _ _ _ Hm) in E.
        rewrite copy_written in E.
        destruct (Z.ltb_spec 0 (Z.of_nat (List.length payload)));
          inversion E; subst; cbn; auto. }
    destruct st; try apply Hp; intros E; now inversion E.
  - rewrite (cmd_receive_one_dead drain None 0 s sc Hc).
    intros E. now inversion E.
Qed.

Lemma cmd_receive_unhandled_step fuel (s : server) :
  cmd_receive_unhandled (S fuel) s
  = match cmd_receive_one (cmd_receive_unhandled fuel) None 0 s with
    | (Some (unhandled, r, l), s') => (Some (true, r, l), s')
    | (Some (conn_dead, r, l), s') => (Some (false, r, l), s')
    | (Some (handled, _, _), s') | (Some (no_cmd, _, _), s') =>
        cmd_receive_unhandled fuel s'
    | (None, s') => (None, s')
    end.
Proof.
  cbn [cmd_receive_unhandled]. unfold bind at 1.
  destruct (cmd_receive_one _ None 0 s) as [[[[[] r] l]|] s']; reflexivity.
Qed.

Lemma cmd_receive_unhandled_last_pull fuel (s s' : server) ok r l :
  cmd_receive_unhandled fuel s = (Some (ok, r, l), s') ->
  exists fuel' s0 stat,
    (fuel' < fuel)%nat /\
    cmd_receive_one (cmd_receive_unhandled fuel') None 0 s0
    = (Some (stat, r, l), s') /\
    (stat = unhandled /\ ok = true \/ stat = conn_dead /\ ok = false).
Proof.
  revert s. induction fuel as [|fuel IH]; intros s E.
  - discriminate.
  - rewrite cmd_receive_unhandled_step in E.
    destruct (cmd_receive_one (cmd_receive_unhandled fuel) None 0 s)
      as [[[[stat r1] l1]|] s1] eqn:E1; [|discriminate].
    destruct stat.
    + destruct (IH _ E) as (f & s0 & st & Hf & H & Hst).
      exists f, s0, st. split; [lia|]. now split.
    + inversion E; subst. exists fuel, s, unhandled. split; [lia|]. auto.
    + destruct (IH _ E) as (f & s0 & st & Hf & H & Hst).
      exists f, s0, st. split; [lia|]. now split.
    + inversion E; subst. exists fuel, s, conn_dead. split; [lia|]. auto.
Qed.

(** C5: when the call went out and the drain comes back without a reply
    (failure, a NULL response or length zero), an error is logged and the
    return-value slot keeps its content; when it comes back with a reply of
    length at least 5 whose first byte is not zero, the slot receives the
    32-bit value that bytes 1 to 4 of the reply form, least significant byte
    first, read as a signed cell.  The length the drain reports is the number
    of bytes of the reply. *)
Theorem public_call_reply fuel amx name params retval
  (s s1 s2 : server) ok response len :
  public_call_send amx name params s = (Some true, s1) ->
  cmd_receive_unhandled fuel s1 = (Some (ok, response, len), s2) ->
  (ok = false \/ response = None \/ len = 0 ->
   let text := ("Received no response to callback " ++ name ++ ".")%string in
   public_call fuel amx name params retval s
   = (Some retval, snd (log_error text s2)) /\
   trace (snd (log_error text s2))
   = trace s2 ++ [(status_ s2,
                   Logged "ERROR"
                          (substring 0 (Z.to_nat (LEN_PRINT_BUFFER - 1))
                                     text))]) /\
  (forall bytes old,
      ok = true -> response = Some bytes -> 5 <= len ->
      nth 0 bytes 0 <> 0 -> retval = Some old ->
      Forall (fun b => 0 <= b < 256) bytes ->
      let u := nth 1 bytes 0 + 256 * nth 2 bytes 0 + 65536 * nth 3 bytes 0
               + 16777216 * nth 4 bytes 0 in
      public_call fuel amx name params retval s
      = (Some (Some (if u <? 2147483648 then u else u - 4294967296)), s2)) /\
  well_formed_reply response len.
Proof.
  intros Hsend Hdrain.
  assert (Hwf : well_formed_reply response len).
  { destruct (cmd_receive_unhandled_last_pull _ _ _ _ _ _ Hdrain)
      as (f & s0 & stat & _ & Hpull & _).
    exact (cmd_receive_one_reply _ _ _ _ _ _ Hpull). }
  split; [|split; [|exact Hwf]].
  - rewrite (public_call_unfold fuel amx name params retval s s1 Hsend).
    unfold bind at 1. rewrite Hdrain. unfold public_call_receive.
    intros Hno. split; [|reflexivity].
    replace (negb ok || is_null response || (len =? 0)) with true; [easy|].
    destruct Hno as [->|[->| ->]]; cbn; now rewrite ?orb_true_r.
  - intros bytes old Hok Hresp Hlen Hfirst Hret Hbytes u.
    subst ok response retval.
    rewrite (public_call_unfold fuel amx name params (Some old) s s1 Hsend).
    unfold bind at 1. rewrite Hdrain. unfold public_call_receive.
    cbn [negb is_null orb].
    replace (len =? 0) with false by (symmetry; apply Z.eqb_neq; lia).
    replace (5 <=? len) with true by (symmetry; apply Z.leb_le; lia).
    replace (nth 0 bytes 0 =? 0) with false
      by (symmetry; now apply Z.eqb_neq).
    cbn [andb negb is_null].
    destruct Hwf as [Hwf _].
    assert (Hnth : forall i, (i < 5)%nat -> 0 <= nth i bytes 0 < 256).
    { intros i Hi. rewrite Forall_forall in Hbytes.
      apply Hbytes, nth_In. lia. }
    pose proof (Hnth 1%nat ltac:(lia)) as H1.
    pose proof (Hnth 2%nat ltac:(lia)) as H2.
    pose proof (Hnth 3%nat ltac:(lia)) as H3.
    pose proof (Hnth 4%nat ltac:(lia)) as H4.
    assert (Hread : read_u32 bytes 1 = u).
    { unfold read_u32. cbn [Nat.add]. rewrite !Z.shiftl_mul_pow2 by lia.
      subst u. change (2 ^ 8) with 256. change (2 ^ 16) with 65536.
      change (2 ^ 24) with 16777216. lia. }
    rewrite Hread. unfold to_cell.
    change (2 ^ 32) with 4294967296. change (2 ^ 31) with 2147483648.
    rewrite (Z.mod_small u) by (subst u; lia).
    reflexivity.
Qed.

(** C6: a round of [cmd_receive_unhandled] pulls one command; it returns
    true on [unhandled] and false on [conn_dead], and on [no_cmd] or [handled]
    it goes on pulling from the state the pull left, so that what a handler
    did stays done and its command is not taken for the reply.  Whenever the
    drain returns, its last pull was [unhandled] (result true) or [conn_dead]
    (result false) and the response it hands back is the one of that pull.
    A ping received while draining is answered with a pong, and the drain
    goes on. *)
Theorem drain_for_reply fuel (s : server) :
  cmd_receive_unhandled (S fuel) s
  = match cmd_receive_one (cmd_receive_unhandled fuel) None 0 s with
    | (Some (unhandled, r, l), s') => (Some (true, r, l), s')
    | (Some (conn_dead, r, l), s') => (Some (false, r, l), s')
    | (Some (handled, _, _), s') | (Some (no_cmd, _, _), s') =>
        cmd_receive_unhandled fuel s'
    | (None, s') => (None, s')
    end
  /\ (forall ok r l s',
         cmd_receive_unhandled fuel s = (Some (ok, r, l), s') ->
         exists fuel' s0 stat,
           (fuel' < fuel)%nat /\
           cmd_receive_one (cmd_receive_unhandled fuel') None 0 s0
           = (Some (stat, r, l), s') /\
           (stat = unhandled /\ ok = true \/ stat = conn_dead /\ ok = false))
  /\ (forall sc stat payload t,
         connect s = (Some true, sc) ->
         comm_receive (communication_ sc) = ((stat, CMD_PING, payload), t) ->
         stat = handled \/ stat = unhandled ->
         let sr := with_buf (write_buf payload (buf_ sc))
                            (with_communication t sc) in
         cmd_receive_unhandled (S fuel) s
         = cmd_receive_unhandled fuel (snd (send CMD_PONG [] sr)) /\
         trace (snd (send CMD_PONG [] sr))
         = trace sc ++ [(status_ sc, Sent CMD_PONG [])]).
Proof.
  split; [apply cmd_receive_unhandled_step|].
  split; [intros ok r l s'; apply cmd_receive_unhandled_last_pull|].
  intros sc stat payload t Hc Hr Hstat sr. split; [|reflexivity].
  rewrite cmd_receive_unhandled_step.
  rewrite (cmd_receive_one_eq _ None 0 s sc stat CMD_PING payload t Hc Hr).
  cbv zeta. fold sr.
  now destruct Hstat as [-> | ->].
Qed.

(** C10: for a command that is not mapped and has length zero,
    [cmd_process] returns [unhandled] and leaves the caller's response
    pointer and length as they were; a drain whose pull receives such a frame
    returns true with a NULL response and length zero.  [public_call] and the
    fake-init path of [cmd_start] do with that outcome what they do when the
    drain fails: log the error and drop the call. *)
Theorem zero_length_reply :
  (forall drain cmd buf resp resplen (s : server),
      is_mapped cmd = false ->
      cmd_process drain cmd buf 0 resp resplen s
      = (Some (unhandled, resp, resplen), s))
  /\ (forall fuel (s sc : server) stat cmd t,
         connect s = (Some true, sc) ->
         comm_receive (communication_ sc) = ((stat, cmd, []), t) ->
         stat = handled \/ stat = unhandled ->
         is_mapped cmd = false ->
         cmd_receive_unhandled (S fuel) s
         = (Some (true, None, 0),
            with_buf (write_buf [] (buf_ sc)) (with_communication t sc)))
  /\ (forall name retval r l,
         public_call_receive name retval (true, None, 0)
         = (public_call_receive name retval (false, r, l)
            : M server (option Z)))
  /\ (forall buf buflen r l (s s2 : server),
         cmd_start (fun _ => (Some (true, None, 0), s2)) buf buflen s
         = cmd_start (fun _ => (Some (false, r, l), s2)) buf buflen s)
  /\ (forall fuel amx name params retval (s s1 s2 : server) ok r l,
         public_call_send amx name params s = (Some true, s1) ->
         cmd_receive_unhandled fuel s1 = (Some (ok, r, l), s2) ->
         ok = false \/ r = None /\ l = 0 ->
         public_call fuel amx name params retval s
         = (Some retval,
            snd (log_error
                   ("Received no response to callback " ++ name ++ ".") s2))).
Proof.
  split; [|split; [|split; [|split]]].
  - intros drain cmd buf resp resplen s Hcmd.
    now rewrite (cmd_process_unmapped _ _ _ _ _ _ _ Hcmd).
  - intros fuel s sc stat cmd t Hc Hr Hstat Hcmd.
    rewrite cmd_receive_unhandled_step.
    rewrite (cmd_receive_one_eq _ None 0 s sc stat cmd [] t Hc Hr).
    cbv zeta. cbn [List.length Z.of_nat].
    rewrite (cmd_process_unmapped _ _ _ _ _ _ _ Hcmd).
    now destruct Hstat as [-> | ->].
  - reflexivity.
  - reflexivity.
  - intros fuel amx name params retval s s1 s2 ok r l Hsend Hdrain Hno.
    rewrite (public_call_unfold fuel amx name params retval s s1 Hsend).
    unfold bind at 1. rewrite Hdrain. unfold public_call_receive.
    replace (negb ok || is_null r || (l =? 0)) with true; [easy|].
    destruct Hno as [->|[-> ->]]; [reflexivity|now destruct ok].
Qed.

End Properties.

(** * The properties on the demo server *)

(** X24 at a concrete run: connect, then start. *)
Lemma init_implies_started_witness :
  reachable_by no_unexpected_disconnect (demo []) demo_started /\
  init_implies_started (status_ demo_started) = true.
Proof.
  assert (H : reachable_by no_unexpected_disconnect (demo []) demo_started).
  { unfold demo_started, demo_connected.
    repeat (apply reachable_step; [|reflexivity]). apply reachable_init. }
  split; [exact H|].
  exact (init_implies_started_reachable
           (mk_script false false [] []) [] [] [] demo_started H).
Defined.

(** C1: the code breaks the invariant.  An unexpected [disconnect] resets
    what the server knows about the client (it clears [client_started] and
    wipes both registries) but leaves [client_received_init]: after connect,
    start, the init call and the loss of the client, a state the operations
    reach, [client_received_init] is set and [client_started] is not. *)
Lemma init_without_started_reachable :
  reachable_by any_operation (demo []) demo_lost /\
  isset (status_ demo_lost) status_client_received_init = true /\
  isset (status_ demo_lost) status_client_started = false /\
  init_implies_started (status_ demo_lost) = false.
Proof.
  split; [|now vm_compute].
  unfold demo_lost, demo_started, demo_connected.
  repeat (apply reachable_step; [|reflexivity]). apply reachable_init.
Qed.

(** C2 at a concrete payload. *)
Lemma cmd_process_classifies_witness :
  0 <= 2 <= Z.of_nat (List.length [7; 9; 11]) /\
  Z.of_nat (List.length (copy_bytes [7; 9; 11] 2)) = 2.
Proof.
  assert (H : 0 <= 2 <= Z.of_nat (List.length [7; 9; 11])) by (cbn; lia).
  split; [exact H|].
  exact (proj1 (proj2 (proj2 (cmd_process_classifies
                                (out_of_fuel : M demo_server reply)
                                CMD_RESPONSE [7; 9; 11] 2 None 0 (demo [])))
                      H)).
Defined.

(** C2 fails at [CMD_RESPONSE], a request identifier that [cmd_process]
    reports as unhandled, and at length zero, where no copy is made and the
    length reported is the one the caller's slot held. *)
Lemma response_is_unhandled :
  In CMD_RESPONSE request_commands /\
  cmd_process out_of_fuel CMD_RESPONSE [7; 9] 2 None 0 (demo [])
  = (Some (unhandled, Some [7; 9], 2), demo []) /\
  cmd_process out_of_fuel 0x20 [] 0 None 5 (demo [])
  = (Some (unhandled, None, 5), demo []).
Proof.
  split; [cbn; auto|]. split; reflexivity.
Qed.

(** C3 at a client that registered the init callback and answers the call. *)
Lemma public_call_init_sends_witness :
  comm_is_connected (communication_ demo_replying) = true /\
  isset (status_ demo_replying) status_client_connected = true /\
  isset (status_ demo_replying) status_client_started = true /\
  isset (Z.lor (Z.lor (status_ demo_replying) status_server_received_init)
               status_client_received_init)
        status_client_received_init = true /\
  count_sent CMD_PUBLIC_CALL
    (trace (snd (public_call 1 None "OnGameModeInit" [0] (Some 7)
                             demo_replying)))
  = S (count_sent CMD_PUBLIC_CALL (trace demo_replying)).
Proof.
  split; [reflexivity|]. split; [reflexivity|]. split; [reflexivity|].
  split; [|reflexivity].
  exact (proj1 (public_call_init_sends 1 None [0] (Some 7) demo_replying
                  eq_refl eq_refl eq_refl)).
Defined.

(** C3 fails in both directions: with no callback registered the init call
    sends no frame, and when the client restarts with mode 2 before it
    replies, two public-call frames leave during the call. *)
Lemma init_call_frame_count :
  (comm_is_connected (communication_ demo_started) = true /\
   isset (status_ demo_started) status_client_connected = true /\
   isset (status_ demo_started) status_client_started = true /\
   trace (snd (public_call 1 None "OnGameModeInit" [0] (Some 7) demo_started))
   = trace demo_started) /\
  (comm_is_connected (communication_ demo_restarting) = true /\
   isset (status_ demo_restarting) status_client_connected = true /\
   isset (status_ demo_restarting) status_client_started = true /\
   count_sent CMD_PUBLIC_CALL (trace demo_restarting) = O /\
   count_sent CMD_PUBLIC_CALL
     (trace (snd (public_call 3 None "OnGameModeInit" [0] (Some 7)
                              demo_restarting)))
   = 2%nat).
Proof. now vm_compute. Qed.

(** C4 fails where the client is not considered connected: after a
    reconnect request, an unexpected disconnect changes nothing. *)
Lemma disconnect_when_not_connected :
  isset (status_ (snd (disconnect None false demo_reconnecting)))
        status_client_started = true /\
  callbacks_is_empty (callbacks_ (snd (disconnect None false
                                                  demo_reconnecting)))
  = false.
Proof. now vm_compute. Qed.

(** C5 at a reply of five bytes. *)
Lemma public_call_reply_witness :
  let s1 := snd (public_call_send None "OnGameModeInit" [0] demo_replying) in
  let s2 := snd (cmd_receive_unhandled 1 s1) in
  public_call_send None "OnGameModeInit" [0] demo_replying = (Some true, s1) /\
  cmd_receive_unhandled 1 s1 = (Some (true, Some [1; 42; 0; 0; 0], 5), s2) /\
  public_call 1 None "OnGameModeInit" [0] (Some 7) demo_replying
  = (Some (Some 42), s2).
Proof.
  intros s1 s2.
  assert (H1 : public_call_send None "OnGameModeInit" [0] demo_replying
               = (Some true, s1)) by (vm_compute; reflexivity).
  assert (H2 : cmd_receive_unhandled 1 s1
               = (Some (true, Some [1; 42; 0; 0; 0], 5), s2))
    by (vm_compute; reflexivity).
  assert (H3 : 5 <= 5) by discriminate.
  assert (H4 : nth 0 [1; 42; 0; 0; 0] 0 <> 0) by discriminate.
  assert (H5 : Forall (fun b => 0 <= b < 256) [1; 42; 0; 0; 0])
    by (repeat constructor; lia).
  split; [exact H1|]. split; [exact H2|].
  pose proof (proj1 (proj2 (public_call_reply 1 None "OnGameModeInit" [0]
                              (Some 7) demo_replying s1 s2 true
                              (Some [1; 42; 0; 0; 0]) 5 H1 H2))
                    [1; 42; 0; 0; 0] 7 eq_refl eq_refl H3 H4 eq_refl H5) as H.
  exact H.
Defined.

(** C6 at a ping that arrives ahead of the reply: the pong goes out and the
    reply is delivered. *)
Lemma drain_for_reply_witness :
  connect demo_pinging = (Some true, demo_pinging) /\
  cmd_receive_unhandled 2 demo_pinging
  = cmd_receive_unhandled
      1 (snd (send CMD_PONG [] (snd (transport_receive demo_pinging)))) /\
  fst (cmd_receive_unhandled 2 demo_pinging)
  = Some (true, Some [1; 42; 0; 0; 0], 5) /\
  outbox (communication_ (snd (cmd_receive_unhandled 2 demo_pinging)))
  = outbox (communication_ demo_pinging) ++ [(CMD_PONG, [])].
Proof.
  split; [reflexivity|]. split; [|split; reflexivity].
  exact (proj1 (proj2 (proj2 (drain_for_reply 1 demo_pinging))
                      demo_pinging unhandled []
                      (snd (comm_receive (communication_ demo_pinging)))
                      eq_refl eq_refl (or_intror eq_refl))).
Defined.

(** C7 at a connected server. *)
Lemma connect_idempotent_witness :
  comm_is_connected (communication_ demo_connected) = true /\
  connect demo_connected = (Some true, demo_connected).
Proof.
  split; [reflexivity|]. apply connect_idempotent. reflexivity.
Defined.

(** C8 at an event that comes before the init call. *)
Lemma public_call_before_init_witness :
  "OnPlayerConnect"%string <> "OnGameModeInit"%string /\
  isset (status_ demo_started) status_client_received_init = false /\
  public_call 1 None "OnPlayerConnect" [0] (Some 7) demo_started
  = (Some (Some 7), demo_started).
Proof.
  assert (H : "OnPlayerConnect"%string <> "OnGameModeInit"%string)
    by discriminate.
  split; [exact H|]. split; [reflexivity|].
  exact (public_call_before_init 1 None "OnPlayerConnect" [0] (Some 7)
           demo_started H eq_refl).
Defined.

(** C9 on the scripted transport: the tick of a client that has received
    init puts one heartbeat frame into the outbox, the tick of a client that
    has not puts nothing there. *)
Lemma tick_heartbeat_iff_witness :
  heartbeat_due demo_initialised = true /\
  tick 1 demo_initialised
  = tick_receive 1 None 0 (snd (send CMD_TICK [] demo_initialised)) /\
  outbox (communication_ (snd (send CMD_TICK [] demo_initialised)))
  = outbox (communication_ demo_initialised) ++ [(CMD_TICK, [])] /\
  heartbeat_due demo_started = false /\
  tick 1 demo_started = tick_receive 1 None 0 demo_started /\
  outbox (communication_ (snd (tick 1 demo_started)))
  = outbox (communication_ demo_started).
Proof.
  assert (H1 : heartbeat_due demo_initialised = true)
    by (vm_compute; reflexivity).
  assert (H2 : heartbeat_due demo_started = false)
    by (vm_compute; reflexivity).
  pose proof (tick_heartbeat_iff 1 demo_initialised) as A.
  pose proof (tick_heartbeat_iff 1 demo_started) as B.
  cbv zeta in A, B. rewrite H1 in A. rewrite H2 in B.
  destruct A as (A1 & A2 & _). destruct B as (B1 & _ & _).
  split; [exact H1|]. split; [exact A1|]. split.
  { rewrite A2. vm_compute. reflexivity. }
  split; [exact H2|]. split; [exact B1|].
  rewrite B1. vm_compute. reflexivity.
Defined.

(** C10 at an empty reply frame. *)
Lemma zero_length_reply_witness :
  connect demo_empty_reply = (Some true, demo_empty_reply) /\
  is_mapped CMD_RESPONSE = false /\
  fst (cmd_receive_unhandled 1 demo_empty_reply) = Some (true, None, 0).
Proof.
  assert (H1 : connect demo_empty_reply = (Some true, demo_empty_reply))
    by (vm_compute; reflexivity).
  assert (H2 : comm_receive (communication_ demo_empty_reply)
               = ((unhandled, CMD_RESPONSE, []),
                  snd (comm_receive (communication_ demo_empty_reply))))
    by (vm_compute; reflexivity).
  split; [exact H1|]. split; [reflexivity|].
  rewrite (proj1 (proj2 zero_length_reply) O demo_empty_reply demo_empty_reply
             unhandled CMD_RESPONSE _ H1 H2 (or_intror eq_refl) eq_refl).
  reflexivity.
Defined.

(** * Further properties *)

Section Further.

Context {T N C : Type}.
Context {transport : communication_server T}.
Context {natives : natives_map N}.
Context {callbacks : callbacks_map C}.
Context {version : version_h}.

Local Abbreviation server := (server T N C).

(** ** Connecting *)

Lemma connect_eq (s : server) :
  connect s
  = if comm_is_connected (communication_ s) then (Some true, s)
    else if comm_is_ready (communication_ s) || fst (comm_setup (communication_ s))
    then
      let t := readied (communication_ s) in
      if fst (comm_connect t) then
        let st := Z.lor (status_ s) status_client_connected in
        let s1 := with_status st (with_communication (snd (comm_connect t)) s) in
        (Some true,
         snd ((STATUS_UNSET status_client_reconnecting : M server unit)
                (snd ((if isset st status_client_reconnecting
                       then log_info "Client reconnected."
                       else log_info "Connected to client.";;
                            cmd_send_announce) s1))))
      else (Some false, with_communication (snd (comm_connect t)) s)
    else (Some false, with_communication (snd (comm_setup (communication_ s))) s).
Proof.
  unfold connect, readied.
  unfold bind at 1. cbn [gets].
  destruct (comm_is_connected (communication_ s)); [reflexivity|].
  unfold bind at 1. cbn [gets].
  destruct (comm_is_ready (communication_ s)) eqn:Hr; cbn [orb].
  - unfold bind at 1. cbn [ret negb].
    unfold bind at 1. cbn [transport_connect].
    destruct (fst (comm_connect (communication_ s))); cbn [negb]; [|reflexivity].
    unfold bind at 1. cbn [STATUS_SET modify].
    unfold bind at 1. cbn [STATUS_ISSET gets status_ with_status].
    destruct (isset _ status_client_reconnecting); reflexivity.
  - unfold bind at 1. cbn [transport_setup].
    destruct (fst (comm_setup (communication_ s))); cbn [negb]; [|reflexivity].
    unfold bind at 1. cbn [transport_connect communication_ with_communication].
    destruct (fst (comm_connect (snd (comm_setup (communication_ s)))));
      cbn [negb]; [|reflexivity].
    unfold bind at 1. cbn [STATUS_SET modify].
    unfold bind at 1. cbn [STATUS_ISSET gets status_ with_status].
    destruct (isset _ status_client_reconnecting); reflexivity.
Qed.

(** X1: a successful [connect] on a transport that was not connected sets
    [client_connected], clears [client_reconnecting] and leaves the three
    init flags, the registries and the buffer alone.  It announces the two
    version numbers, eight bytes, unless [client_reconnecting] was set, in
    which case no frame is sent. *)
Theorem connect_establishes (s : server) :
  comm_is_connected (communication_ s) = false ->
  connectable (communication_ s) = true ->
  let s' := snd (connect s) in
  let st := Z.lor (status_ s) status_client_connected in
  let announcement :=
    le_bytes32 PLUGIN_PROTOCOL_VERSION ++ le_bytes32 PLUGIN_VERSION in
  fst (connect s) = Some true /\
  isset (status_ s') status_client_connected = true /\
  isset (status_ s') status_client_reconnecting = false /\
  isset (status_ s') status_client_started
  = isset (status_ s) status_client_started /\
  isset (status_ s') status_client_received_init
  = isset (status_ s) status_client_received_init /\
  isset (status_ s') status_server_received_init
  = isset (status_ s) status_server_received_init /\
  natives_ s' = natives_ s /\ callbacks_ s' = callbacks_ s /\
  buf_ s' = buf_ s /\
  List.length announcement = 8%nat /\
  trace s'
  = trace s ++
    if isset (status_ s) status_client_reconnecting
    then [(st, logged "INFO" "Client reconnected.")]
    else [(st, logged "INFO" "Connected to client.");
          (st, Sent CMD_ANNOUNCE announcement);
          (st, logged "INFO" "Server annoucement sent.")].
Proof.
  intros Hlink Hok s' st announcement. subst s'.
  unfold connectable in Hok. apply andb_true_iff in Hok as [Hup Hconn].
  rewrite connect_eq, Hlink, Hup. cbv zeta. rewrite Hconn. fold st.
  replace (isset st status_client_reconnecting)
    with (isset (status_ s) status_client_reconnecting)
    by (subst st; now flags).
  destruct (isset (status_ s) status_client_reconnecting) eqn:Hrc;
    unfold STATUS_UNSET, cmd_send_announce, send, log_info, vlog, emit, bind,
      modify, logged;
    cbn [fst snd status_ trace natives_ callbacks_ buf_ communication_
         with_status with_trace with_communication];
    repeat split;
    try (subst st; flags; rewrite ?Hrc; reflexivity);
    rewrite <- ?app_assoc; reflexivity.
Qed.

(** X2: [connect] returns true exactly when the transport is connected
    already or lets itself be set up and connected; when it returns false,
    nothing but the transport has changed: no flag, no registry, no event. *)
Theorem connect_result (s : server) :
  fst (connect s)
  = Some (comm_is_connected (communication_ s)
          || connectable (communication_ s)) /\
  (fst (connect s) = Some false ->
   let s' := snd (connect s) in
   status_ s' = status_ s /\ natives_ s' = natives_ s /\
   callbacks_ s' = callbacks_ s /\ buf_ s' = buf_ s /\ trace s' = trace s).
Proof.
  rewrite connect_eq. unfold connectable.
  destruct (comm_is_connected (communication_ s)); [now split|].
  destruct (comm_is_ready (communication_ s) ||
            fst (comm_setup (communication_ s))); cbn [orb andb];
    [|now split].
  cbv zeta.
  destruct (fst (comm_connect (readied (communication_ s)))); now split.
Qed.

Lemma cmd_reconnect_eq buf buflen (s : server) :
  comm_is_connected (communication_ s) = true ->
  isset (status_ s) status_client_connected = true ->
  let st := Z.lor (status_ s) status_client_reconnecting in
  cmd_reconnect buf buflen s
  = (Some tt,
     mk_server (Z.land st (Z.lnot status_client_connected))
               (snd (comm_setup (comm_disconnect (communication_ s))))
               (natives_ s) (callbacks_ s) (buf_ s)
               (trace s
                ++ [(status_ s,
                     logged "INFO" "The gamemode has is reconnecting.");
                    (st, logged "INFO" "Client disconnected.")])).
Proof.
  intros Hlink Hconn st.
  unfold cmd_reconnect. unfold bind at 1. cbn [log_info vlog emit modify].
  unfold bind at 1. cbn [STATUS_SET modify].
  unfold disconnect. rewrite (bind_pure _ _ _ _ (is_client_connected_eq _)).
  cbn [communication_ status_ with_status with_trace]. fold st.
  replace (isset st status_client_connected) with true
    by (subst st; flags; now rewrite Hconn).
  rewrite Hlink. cbn [andb negb].
  unfold STATUS_UNSET, transport_setup, transport_disconnect, log_info, vlog,
    emit, bind, modify, logged, with_status, with_trace, with_communication.
  cbn [fst snd status_ trace natives_ callbacks_ buf_ communication_].
  now rewrite <- app_assoc.
Qed.

(** X3: a reconnect that the client requests and that succeeds keeps what
    the server knows about the client.  After [cmd_reconnect] on a connected
    client and a [connect] that gets through, [client_connected] is set
    again, [client_reconnecting] is cleared, the three init flags and both
    registries are as they were, and the trace has grown by three log lines:
    no announcement is sent. *)
Theorem reconnect_keeps_client buf buflen (s : server) :
  comm_is_connected (communication_ s) = true ->
  isset (status_ s) status_client_connected = true ->
  let t := snd (comm_setup (comm_disconnect (communication_ s))) in
  comm_is_connected t = false ->
  connectable t = true ->
  let s' := snd (connect (snd (cmd_reconnect buf buflen s))) in
  fst (connect (snd (cmd_reconnect buf buflen s))) = Some true /\
  isset (status_ s') status_client_connected = true /\
  isset (status_ s') status_client_reconnecting = false /\
  isset (status_ s') status_client_started
  = isset (status_ s) status_client_started /\
  isset (status_ s') status_client_received_init
  = isset (status_ s) status_client_received_init /\
  isset (status_ s') status_server_received_init
  = isset (status_ s) status_server_received_init /\
  natives_ s' = natives_ s /\ callbacks_ s' = callbacks_ s /\
  sent_commands (trace s') = sent_commands (trace s) /\
  exists st1 st2,
    trace s'
    = trace s ++ [(status_ s,
                   logged "INFO" "The gamemode has is reconnecting.");
                  (st1, logged "INFO" "Client disconnected.");
                  (st2, logged "INFO" "Client reconnected.")].
Proof.
  intros Hlink Hconn t Hdown Hok s'. subst s'.
  rewrite (cmd_reconnect_eq buf buflen s Hlink Hconn). cbn [snd].
  unfold connectable in Hok. apply andb_true_iff in Hok as [Hup Hc].
  rewrite connect_eq. cbn [communication_ status_]. fold t.
  rewrite Hdown, Hup. cbv zeta. rewrite Hc.
  match goal with
  | |- context [if ?b then log_info _ else _] =>
      replace b with true by (flags; now rewrite ?orb_true_r)
  end.
  unfold STATUS_UNSET, log_info, vlog, emit, bind, modify, logged,
    with_status, with_trace, with_communication.
  cbn [fst snd status_ trace natives_ callbacks_ buf_ communication_].
  repeat split; try (flags; rewrite ?Hconn; reflexivity).
  - unfold sent_commands. rewrite !flat_map_app. cbn. now rewrite !app_nil_r.
  - eexists _, _. now rewrite <- app_assoc.
Qed.

End Further.

Section FurtherStart.

Context {T N C : Type}.
Context {transport : communication_server T}.
Context {natives : natives_map N}.
Context {callbacks : callbacks_map C}.
Context {version : version_h}.

Local Abbreviation server := (server T N C).

(** ** Start sequencing *)

Lemma cmd_start_eq drain buf buflen (s : server) :
  let s1 := started_state s in
  let mode := start_mode buf buflen in
  cmd_start drain buf buflen s
  = if mode =? 0 then (Some tt, s1)
    else if mode =? 1 then
      if isset (status_ s1) status_server_received_init
      then sampgdk_SendRconCommand "gmx" s1
      else (Some tt, s1)
    else if mode =? 2 then
      if isset (status_ s1) status_server_received_init
      then
        let s2 := with_status (Z.lor (status_ s1) status_client_received_init)
                              s1 in
        let data := callbacks_fill_call_buffer None "OnGameModeInit" [0]
                                               (callbacks_ s) in
        let s3 := with_buf (write_buf data (buf_ s)) s2 in
        match data with
        | [] => (Some tt, s3)
        | _ => bind drain fake_init_receive
                    (snd (send CMD_PUBLIC_CALL data s3))
        end
      else (Some tt, s1)
    else log_error "Invalid game mode start mode" s1.
Proof.
  intros s1 mode. unfold cmd_start.
  unfold bind at 1. cbn [log_info vlog emit modify].
  unfold bind at 1. cbn [STATUS_SET modify].
  fold (start_mode buf buflen). fold mode.
  change (with_status _ (with_trace _ s)) with s1.
  change (fun x : reply => let '(ok, response, len) := x in
            if negb ok || is_null response || (len =? 0)
            then log_error "Received no response to callback OnGameModeInit."
            else ret tt) with (@fake_init_receive T N C).
  destruct (mode =? 0); [reflexivity|].
  destruct (mode =? 1).
  { unfold bind at 1. cbn [STATUS_ISSET gets]. now split_if. }
  destruct (mode =? 2); [|reflexivity].
  unfold bind at 1. cbn [STATUS_ISSET gets].
  destruct (isset (status_ s1) status_server_received_init); [|reflexivity].
  unfold bind at 1. cbn [STATUS_SET modify].
  unfold bind at 1. cbn [fill_call_buffer callbacks_ with_status buf_].
  cbv zeta.
  change (callbacks_ s1) with (callbacks_ s).
  change (buf_ s1) with (buf_ s).
  destruct (callbacks_fill_call_buffer None "OnGameModeInit" [0] (callbacks_ s))
    as [|b data'] eqn:Edata.
  - reflexivity.
  - cbn [List.length]. rewrite Nat2Z.inj_succ.
    replace (Z.succ (Z.of_nat (List.length data')) =? 0) with false
      by (symmetry; apply Z.eqb_neq; lia).
    unfold bind at 1. cbn [gets buf_ with_buf].
    rewrite <- Nat2Z.inj_succ.
    change (S (List.length data')) with (List.length (b :: data')).
    rewrite copy_written.
    unfold bind at 1.
    reflexivity.
Qed.

(** X4: while the host has not seen its init event, a start command of any
    mode sends no frame and issues no console command.  It logs the start and
    sets [client_started], and for a mode other than 0, 1 and 2 it also logs
    an error; nothing else changes. *)
Theorem cmd_start_before_host_init drain buf buflen (s : server) :
  isset (status_ s) status_server_received_init = false ->
  let mode := start_mode buf buflen in
  let s' := snd (cmd_start drain buf buflen s) in
  cmd_start drain buf buflen s
  = (if (mode =? 0) || (mode =? 1) || (mode =? 2)
     then (Some tt, started_state s)
     else log_error "Invalid game mode start mode" (started_state s)) /\
  fst (cmd_start drain buf buflen s) = Some tt /\
  sent_commands (trace s') = sent_commands (trace s) /\
  console_commands (trace s') = console_commands (trace s) /\
  status_ s' = Z.lor (status_ s) status_client_started /\
  communication_ s' = communication_ s /\
  natives_ s' = natives_ s /\ callbacks_ s' = callbacks_ s /\
  buf_ s' = buf_ s.
Proof.
  intros Hinit mode s'. subst s'.
  rewrite cmd_start_eq. cbv zeta. fold mode.
  replace (isset (status_ (started_state s)) status_server_received_init)
    with false by (cbn [started_state status_]; flags; now rewrite Hinit).
  assert (Hs : sent_commands (trace (started_state s))
               = sent_commands (trace s))
    by (unfold sent_commands; cbn [started_state trace];
        rewrite flat_map_app; cbn; now rewrite app_nil_r).
  assert (Hc : console_commands (trace (started_state s))
               = console_commands (trace s))
    by (unfold console_commands; cbn [started_state trace];
        rewrite flat_map_app; cbn; now rewrite app_nil_r).
  destruct (mode =? 0); [now repeat split|].
  destruct (mode =? 1); [now repeat split|].
  destruct (mode =? 2); [now repeat split|].
  cbn [orb]. repeat split.
  - unfold sent_commands in *. cbn [log_error vlog emit modify snd trace
                                     with_trace].
    rewrite flat_map_app, Hs. cbn. now rewrite app_nil_r.
  - unfold console_commands in *. cbn [log_error vlog emit modify snd trace
                                        with_trace].
    rewrite flat_map_app, Hc. cbn. now rewrite app_nil_r.
Qed.

(** X5: start mode 1, once the host has seen its init event, issues the
    console command gmx and nothing else: no frame is sent and the client is
    not marked as having received init. *)
Theorem cmd_start_gmx drain buf buflen (s : server) :
  start_mode buf buflen = 1 ->
  isset (status_ s) status_server_received_init = true ->
  let st := Z.lor (status_ s) status_client_started in
  let s' := snd (cmd_start drain buf buflen s) in
  fst (cmd_start drain buf buflen s) = Some tt /\
  trace s'
  = trace s ++ [(status_ s, logged "INFO" "The gamemode has started.");
                (st, Rcon "gmx")] /\
  status_ s' = st /\
  communication_ s' = communication_ s /\
  natives_ s' = natives_ s /\ callbacks_ s' = callbacks_ s /\
  buf_ s' = buf_ s.
Proof.
  intros Hmode Hinit st s'. subst s'.
  rewrite cmd_start_eq. cbv zeta. rewrite Hmode. cbn [Z.eqb Pos.eqb].
  replace (isset (status_ (started_state s)) status_server_received_init)
    with true by (cbn [started_state status_]; flags; now rewrite Hinit).
  cbn. now rewrite <- app_assoc.
Qed.

(** X6: start mode 2, once the host has seen its init event, marks the
    client as having received init whether or not a call goes out.  With no
    serialised call nothing is sent; otherwise one init notification is sent
    (no script context, one zero cell as parameters) and the drain runs: a
    reply of any content and non-zero length ends the command silently,
    anything else ends it with an error line. *)
Theorem cmd_start_fake_init drain buf buflen (s : server) :
  start_mode buf buflen = 2 ->
  isset (status_ s) status_server_received_init = true ->
  let data :=
    callbacks_fill_call_buffer None "OnGameModeInit" [0] (callbacks_ s) in
  let st := Z.lor (Z.lor (status_ s) status_client_started)
                  status_client_received_init in
  let s3 := with_buf (write_buf data (buf_ s))
                     (with_status st (started_state s)) in
  let sent := snd (send CMD_PUBLIC_CALL data s3) in
  isset st status_client_received_init = true /\
  match data with
  | [] => cmd_start drain buf buflen s = (Some tt, s3)
  | _ =>
      trace sent
      = trace s ++ [(status_ s, logged "INFO" "The gamemode has started.");
                    (st, Sent CMD_PUBLIC_CALL data)] /\
      forall ok response len s4,
        drain sent = (Some (ok, response, len), s4) ->
        cmd_start drain buf buflen s
        = if ok && negb (is_null response) && negb (len =? 0)
          then (Some tt, s4)
          else log_error "Received no response to callback OnGameModeInit."
                         s4
  end.
Proof.
  intros Hmode Hinit data st s3 sent.
  split; [subst st; now flags|].
  rewrite cmd_start_eq. cbv zeta. rewrite Hmode. cbn [Z.eqb Pos.eqb].
  replace (isset (status_ (started_state s)) status_server_received_init)
    with true by (cbn [started_state status_]; flags; now rewrite Hinit).
  fold data. change (with_buf _ (with_status _ (started_state s))) with s3.
  destruct data as [|b data'] eqn:Edata; [reflexivity|].
  fold sent. split.
  - subst sent s3. cbn. now rewrite <- app_assoc.
  - intros ok response len s4 Hdrain. unfold bind. rewrite Hdrain.
    unfold fake_init_receive.
    destruct ok, response as [bytes|], (len =? 0); reflexivity.
Qed.

End FurtherStart.

Section FurtherCalls.

Context {T N C : Type}.
Context {transport : communication_server T}.
Context {natives : natives_map N}.
Context {callbacks : callbacks_map C}.
Context {version : version_h}.

Local Abbreviation server := (server T N C).

(** ** Public calls *)

Lemma track_init_flags name st :
  isset (track_init name st) status_client_connected
  = isset st status_client_connected /\
  isset (track_init name st) status_client_started
  = isset st status_client_started /\
  isset (track_init name st) status_client_received_init
  = isset st status_client_received_init /\
  isset (track_init name st) status_client_reconnecting
  = isset st status_client_reconnecting.
Proof.
  unfold track_init. repeat split_if; repeat split; now flags.
Qed.

Lemma public_call_send_eq amx name params (s : server) :
  let st0 := track_init name (status_ s) in
  let gate := comm_is_connected (communication_ s)
              && isset (status_ s) status_client_connected
              && isset (status_ s) status_client_started in
  let is_gmi := (name =? "OnGameModeInit")%string in
  let data := callbacks_fill_call_buffer amx name params (callbacks_ s) in
  let st1 := if gate && is_gmi
             then Z.lor st0 status_client_received_init else st0 in
  public_call_send amx name params s
  = if forwarded amx name params s
    then (Some true,
          snd (send CMD_PUBLIC_CALL data
                    (with_buf (write_buf data (buf_ s)) (with_status st1 s))))
    else (Some false,
          if gate && (is_gmi || isset (status_ s) status_client_received_init)
          then with_buf (write_buf data (buf_ s)) (with_status st1 s)
          else with_status st1 s).
Proof.
  destruct s as [st t n c b tr].
  unfold public_call_send, forwarded, track_init.
  cbn [status_ communication_ callbacks_ buf_]. cbv zeta.
  set (data := callbacks_fill_call_buffer amx name params c).
  assert (Hcopy : copy_bytes (write_buf data b) (Z.of_nat (List.length data))
                  = data) by apply copy_written.
  destruct (comm_is_connected t) eqn:Hlink,
    (isset st status_client_connected) eqn:Hconn,
    (isset st status_client_started) eqn:Hstarted,
    (isset st status_client_received_init) eqn:Hinit,
    (Z.of_nat (List.length data) =? 0) eqn:Hlen;
  (destruct (name =? "OnGameModeInit")%string;
    [|destruct (name =? "OnGameModeExit")%string]);
    cbn [negb andb orb];
    unfold bind, is_client_connected, bind, gets, STATUS_ISSET, STATUS_SET,
      STATUS_UNSET, modify, gets, ret, fill_call_buffer;
    repeat first
      [ reflexivity
      | progress cbn [negb andb orb status_ communication_ callbacks_ buf_
                      with_status with_buf fst snd]
      | progress fold data
      | progress rewrite ?Hcopy
      | progress flags
      | match goal with
        | H : ?x = _ |- context [?x] => rewrite H
        end ].
Qed.

Lemma sent_commands_app (tr1 tr2 : list (Z * event)) :
  sent_commands (tr1 ++ tr2) = sent_commands tr1 ++ sent_commands tr2.
Proof. apply flat_map_app. Qed.

(** X7: a public call goes out exactly when the transport is connected,
    [client_connected] and [client_started] are set, the event is the init
    event or [client_received_init] is set, and the Callback Registry
    serialises the call to something.  When it goes out, one public-call
    frame carrying the serialised call is handed to the transport; when it
    does not, nothing is sent, the transport is not touched, and
    [public_call] returns at once with the return-value slot as it was. *)
Theorem public_call_forwarded_iff fuel amx name params retval (s : server) :
  let s' := snd (public_call_send amx name params s) in
  let data := callbacks_fill_call_buffer amx name params (callbacks_ s) in
  fst (public_call_send amx name params s)
  = Some (forwarded amx name params s) /\
  trace s'
  = trace s ++ (if forwarded amx name params s
                then [(status_ s', Sent CMD_PUBLIC_CALL data)] else []) /\
  communication_ s'
  = (if forwarded amx name params s
     then comm_send CMD_PUBLIC_CALL data (communication_ s)
     else communication_ s) /\
  natives_ s' = natives_ s /\ callbacks_ s' = callbacks_ s /\
  (forwarded amx name params s = false ->
   public_call fuel amx name params retval s = (Some retval, s')).
Proof.
  intros s' data. subst s'.
  unfold public_call. unfold bind at 1.
  rewrite public_call_send_eq. cbv zeta. fold data.
  destruct (forwarded amx name params s).
  - cbn. repeat split. intros; discriminate.
  - cbn [fst snd negb]. rewrite app_nil_r.
    split_if; now repeat split.
Qed.

(** X8: [public_call] keeps track of the init event of the host whether or
    not a client is there: after the first part of a call,
    [server_received_init] is set for the init event, cleared for the exit
    event and as it was for any other event.  When the client is not
    connected or not started, that is all the call does. *)
Theorem public_call_tracks_host_init fuel amx name params retval (s : server) :
  let s' := snd (public_call_send amx name params s) in
  let is_gmi := (name =? "OnGameModeInit")%string in
  let is_gme := (name =? "OnGameModeExit")%string in
  isset (status_ s') status_server_received_init
  = is_gmi || (isset (status_ s) status_server_received_init && negb is_gme) /\
  (comm_is_connected (communication_ s)
   && isset (status_ s) status_client_connected
   && isset (status_ s) status_client_started = false ->
   public_call fuel amx name params retval s
   = (Some retval, with_status (track_init name (status_ s)) s)).
Proof.
  intros s' is_gmi is_gme. subst s'. split.
  - rewrite public_call_send_eq. cbv zeta.
    assert (H : isset (track_init name (status_ s))
                      status_server_received_init
                = is_gmi ||
                  (isset (status_ s) status_server_received_init
                   && negb is_gme)).
    { unfold track_init. fold is_gmi is_gme.
      destruct is_gmi, is_gme; cbn [orb andb negb]; flags;
        now rewrite ?orb_false_r, ?andb_true_r. }
    repeat split_if; cbn [snd status_ with_status with_buf send emit modify
                           bind with_trace with_communication]; try exact H;
      flags; flags; try exact H.
    all: unfold send, emit, bind, modify; cbn; flags; try exact H.
  - intros Hgate. unfold public_call. unfold bind at 1.
    rewrite public_call_send_eq. cbv zeta. unfold forwarded.
    rewrite Hgate. reflexivity.
Qed.

(** X9: a reply that is shorter than five bytes, or whose first byte is
    zero, leaves the return-value slot as it was and is not an error:
    nothing is logged. *)
Theorem public_call_short_reply fuel amx name params retval
  (s s1 s2 : server) bytes len :
  public_call_send amx name params s = (Some true, s1) ->
  cmd_receive_unhandled fuel s1 = (Some (true, Some bytes, len), s2) ->
  len < 5 \/ nth 0 bytes 0 = 0 ->
  public_call fuel amx name params retval s = (Some retval, s2).
Proof.
  intros Hsend Hdrain Hshort.
  assert (Hwf : well_formed_reply (Some bytes) len).
  { destruct (cmd_receive_unhandled_last_pull _ _ _ _ _ _ Hdrain)
      as (f & s0 & stat & _ & Hpull & _).
    exact (cmd_receive_one_reply _ _ _ _ _ _ Hpull). }
  destruct Hwf as [_ Hpos].
  rewrite (public_call_unfold fuel amx name params retval s s1 Hsend).
  unfold bind. rewrite Hdrain. unfold public_call_receive.
  cbn [negb is_null orb].
  replace (len =? 0) with false by (symmetry; apply Z.eqb_neq; lia).
  destruct Hshort as [Hlen|Hzero].
  - replace (5 <=? len) with false by (symmetry; apply Z.leb_gt; lia).
    reflexivity.
  - rewrite Hzero. cbn [Z.eqb negb]. now rewrite andb_false_r.
Qed.

(** X10: when the connection is found dead at the first pull of the drain,
    because [connect] fails or because the transport reports [conn_dead],
    the drain returns false at once and the public call ends with an error
    line and the return-value slot as it was. *)
Theorem public_call_connection_dead fuel amx name params retval
  (s s1 sd : server) :
  public_call_send amx name params s = (Some true, s1) ->
  (connect s1 = (Some false, sd) \/
   exists sc cmd payload t,
     connect s1 = (Some true, sc) /\
     comm_receive (communication_ sc) = ((conn_dead, cmd, payload), t) /\
     sd = with_buf (write_buf payload (buf_ sc)) (with_communication t sc)) ->
  cmd_receive_unhandled (S fuel) s1 = (Some (false, None, 0), sd) /\
  public_call (S fuel) amx name params retval s
  = (Some retval,
     snd (log_error ("Received no response to callback " ++ name ++ ".") sd)).
Proof.
  intros Hsend Hdead.
  assert (Hdrain : cmd_receive_unhandled (S fuel) s1
                   = (Some (false, None, 0), sd)).
  { rewrite cmd_receive_unhandled_step.
    destruct Hdead as [Hc|(sc & cmd & payload & t & Hc & Hr & ->)].
    - now rewrite (cmd_receive_one_dead _ None 0 s1 sd Hc).
    - now rewrite (cmd_receive_one_eq _ None 0 s1 sc conn_dead cmd payload t
                     Hc Hr). }
  split; [exact Hdrain|].
  rewrite (public_call_unfold _ amx name params retval s s1 Hsend).
  unfold bind. rewrite Hdrain. reflexivity.
Qed.

End FurtherCalls.

Section FurtherPulls.

Context {T N C : Type}.
Context {transport : communication_server T}.
Context {natives : natives_map N}.
Context {callbacks : callbacks_map C}.
Context {version : version_h}.

Local Abbreviation server := (server T N C).

(** ** Pulls and ticks *)

(** X11: an unhandled frame with a payload reaches the caller of
    [cmd_receive_one] as a copy that is the payload, byte for byte, with its
    length, whatever the receive buffer held before and whatever the caller's
    slots held. *)
Theorem unhandled_frame_delivered drain response len (s sc : server)
  stat cmd payload t :
  connect s = (Some true, sc) ->
  comm_receive (communication_ sc) = ((stat, cmd, payload), t) ->
  stat = handled \/ stat = unhandled ->
  is_mapped cmd = false ->
  payload <> [] ->
  cmd_receive_one drain response len s
  = (Some (unhandled, Some payload, Z.of_nat (List.length payload)),
     with_buf (write_buf payload (buf_ sc)) (with_communication t sc)).
Proof.
  intros Hc Hr Hstat Hcmd Hpayload.
  rewrite (cmd_receive_one_eq drain response len s sc stat cmd payload t Hc Hr).
  cbv zeta. rewrite (cmd_process_unmapped _ _ _ _ _ _ _ Hcmd), copy_written.
  replace (0 <? Z.of_nat (List.length payload)) with true.
  - now destruct Hstat as [-> | ->].
  - symmetry. apply Z.ltb_lt. destruct payload; [congruence|cbn; lia].
Qed.

(** A copy that a pull stores is never empty: when the caller's slot holds
    a pointer without bytes after a pull, it held that pointer before. *)
Lemma stored_copy_has_bytes drain response len (s s' : server) stat l :
  cmd_receive_one drain response len s = (Some (stat, Some [], l), s') ->
  response = Some [].
Proof.
  destruct (connect_returns s) as (ok & sc & Hc). destruct ok.
  - destruct (comm_receive (communication_ sc)) as [[[st cmd] payload] t] eqn:Hr.
    rewrite (cmd_receive_one_eq drain response len s sc st cmd payload t Hc Hr).
    cbv zeta.
    assert (Hp : forall x,
              cmd_process drain cmd (write_buf payload (buf_ sc))
                (Z.of_nat (List.length payload)) response len x
              = (Some (stat, Some [], l), s') -> response = Some []).
    { intros x E. destruct (is_mapped cmd) eqn:Hm.
      - apply (cmd_process_mapped _ _ _ _ _ _ _ _ _ _ _ Hm) in E.
        now destruct E as (_ & -> & _).
      - rewrite (cmd_process_unmapped _ _ _ _ _ _ _ Hm) in E.
        rewrite copy_written in E.
        destruct (Z.ltb_spec 0 (Z.of_nat (List.length payload))) as [Hpos|_].
        + inversion E as [[Hstat Hcopy Hlen]]. rewrite Hcopy in Hpos.
          cbn in Hpos. lia.
        + now inversion E. }
    destruct st; try apply Hp; intros E; now inversion E.
  - rewrite (cmd_receive_one_dead drain response len s sc Hc).
    intros E. now inversion E.
Qed.

Lemma connect_false_link (s sc : server) :
  connect s = (Some false, sc) ->
  comm_is_connected (communication_ s) = false /\
  status_ sc = status_ s /\ natives_ sc = natives_ s /\
  callbacks_ sc = callbacks_ s /\ buf_ sc = buf_ s /\ trace sc = trace s.
Proof.
  rewrite connect_eq.
  destruct (comm_is_connected (communication_ s)); [discriminate|].
  destruct (comm_is_ready (communication_ s) ||
            fst (comm_setup (communication_ s))).
  - cbv zeta.
    destruct (fst (comm_connect (readied (communication_ s))));
      [discriminate|].
    intros E. inversion E. now repeat split.
  - intros E. inversion E. now repeat split.
Qed.

(** X13: a tick while no client can be connected is silent and short: no
    heartbeat, no frame, no log line and no change of a flag or a registry;
    it returns after one round, in the state the failed [connect] left. *)
Theorem tick_without_client fuel (s sc : server) :
  connect s = (Some false, sc) ->
  tick (S fuel) s = (Some tick_returned, sc) /\
  status_ sc = status_ s /\ natives_ sc = natives_ s /\
  callbacks_ sc = callbacks_ s /\ buf_ sc = buf_ s /\ trace sc = trace s.
Proof.
  intros Hc. destruct (connect_false_link s sc Hc) as [Hlink Hrest].
  split; [|exact Hrest].
  unfold tick. unfold bind at 1. rewrite tick_heartbeat_eq.
  unfold heartbeat_due. rewrite Hlink. cbn [andb].
  cbn [tick_receive]. unfold bind at 1.
  now rewrite (cmd_receive_one_dead _ None 0 s sc Hc).
Qed.

End FurtherPulls.

(** ** Bytes on the wire *)

Lemma land_255 (v : Z) : Z.land v 255 = v mod 256.
Proof. change 255 with (Z.ones 8). now rewrite Z.land_ones. Qed.

Lemma read_le_bytes32 (v : Z) :
  read_u32 (le_bytes32 v) 0 = v mod 2 ^ 32.
Proof.
  unfold read_u32, le_bytes32. cbn [nth Nat.add].
  rewrite !land_255, !Z.shiftr_div_pow2, !Z.shiftl_mul_pow2 by lia.
  change (2 ^ 8) with 256. change (2 ^ 16) with 65536.
  change (2 ^ 24) with 16777216. change (2 ^ 32) with 4294967296.
  Z.div_mod_to_equations. lia.
Qed.

Lemma le_bytes32_round_trip (v : Z) :
  - 2 ^ 31 <= v < 2 ^ 31 ->
  to_cell (read_u32 (le_bytes32 v) 0) = v.
Proof.
  intros Hrange. rewrite read_le_bytes32. unfold to_cell.
  rewrite Z.mod_mod by lia.
  change (2 ^ 32) with 4294967296 in *.
  change (2 ^ 31) with 2147483648 in *.
  destruct (Z.ltb_spec (v mod 4294967296) 2147483648);
    Z.div_mod_to_equations; lia.
Qed.

Lemma le_bytes32_bytes (v : Z) :
  Forall (fun b => 0 <= b < 256) (le_bytes32 v).
Proof.
  unfold le_bytes32. repeat constructor; rewrite land_255;
    apply Z.mod_pos_bound; lia.
Qed.

Section FurtherBytes.

Context {T N C : Type}.
Context {transport : communication_server T}.
Context {natives : natives_map N}.
Context {callbacks : callbacks_map C}.
Context {version : version_h}.

Local Abbreviation server := (server T N C).

(** X14: [cmd_find_native] answers with one response frame (command 0x03)
    of four bytes, each below 256, and hands the registry on as the lookup
    left it.  The four bytes decode to the handle: read back as a 32-bit
    value and stored into a cell they give the handle again, for every handle
    a 32-bit signed integer can hold, the sentinel -1 among them. *)
Theorem cmd_find_native_reply buf buflen (s : server) :
  let handle := fst (natives_get_handle buf (natives_ s)) in
  let s' := snd (cmd_find_native buf buflen s) in
  fst (cmd_find_native buf buflen s) = Some tt /\
  trace s' = trace s ++ [(status_ s, Sent CMD_RESPONSE (le_bytes32 handle))] /\
  natives_ s' = snd (natives_get_handle buf (natives_ s)) /\
  status_ s' = status_ s /\
  List.length (le_bytes32 handle) = 4%nat /\
  Forall (fun b => 0 <= b < 256) (le_bytes32 handle) /\
  (- 2 ^ 31 <= handle < 2 ^ 31 ->
   to_cell (read_u32 (le_bytes32 handle) 0) = handle).
Proof.
  intros handle s'. subst s'.
  repeat split; try reflexivity.
  - apply le_bytes32_bytes.
  - apply le_bytes32_round_trip.
Qed.

(** X15: a reply made of a non-zero byte and the four little-endian bytes of
    a value puts that value into the return-value slot of the public call,
    for every value a cell can hold. *)
Theorem public_call_returns_value fuel amx name params old
  (s s1 s2 : server) flag value :
  public_call_send amx name params s = (Some true, s1) ->
  cmd_receive_unhandled fuel s1
  = (Some (true, Some (flag :: le_bytes32 value), 5), s2) ->
  flag <> 0 ->
  - 2 ^ 31 <= value < 2 ^ 31 ->
  public_call fuel amx name params (Some old) s = (Some (Some value), s2).
Proof.
  intros Hsend Hdrain Hflag Hrange.
  rewrite (public_call_unfold fuel amx name params (Some old) s s1 Hsend).
  unfold bind. rewrite Hdrain. unfold public_call_receive.
  cbn [negb is_null orb Z.eqb Z.leb Z.compare Pos.compare Pos.compare_cont
       andb nth].
  apply Z.eqb_neq in Hflag. rewrite Hflag. cbn [negb].
  change (read_u32 (flag :: le_bytes32 value) 1)
    with (read_u32 (le_bytes32 value) 0).
  now rewrite le_bytes32_round_trip.
Qed.

Lemma c_str_app (text rest : list Z) :
  Forall (fun b => b <> 0) text ->
  c_str (text ++ rest) = text ++ c_str rest.
Proof.
  induction 1 as [|b text Hb _ IH]; [reflexivity|].
  cbn. apply Z.eqb_neq in Hb. now rewrite Hb, IH.
Qed.

Lemma skipn_write_buf (payload old : list Z) :
  write_buf payload old = payload ++ skipn (List.length payload) old.
Proof. reflexivity. Qed.


End FurtherBytes.

Section FurtherFlags.

Context {T N C : Type}.
Context {transport : communication_server T}.
Context {natives : natives_map N}.
Context {callbacks : callbacks_map C}.
Context {version : version_h}.

Local Abbreviation server := (server T N C).

(** ** Flags that stay *)

Local Abbreviation has_flag := (@has_flag T N C).

Lemma has_flag_set (flag v : Z) :
  In flag [status_client_started; status_client_received_init] ->
  In v [status_client_connected; status_client_started;
        status_server_received_init; status_client_reconnecting] ->
  preserves (has_flag flag) (STATUS_SET v).
Proof.
  intros Hf Hv s H. unfold has_flag in *.
  cbn [STATUS_SET modify snd status_ with_status].
  cbn [In] in Hf, Hv.
  destruct Hf as [<-|[<-|[]]];
    destruct Hv as [<-|[<-|[<-|[<-|[]]]]]; flags; now rewrite ?H.
Qed.

Lemma has_flag_unset (flag v : Z) :
  In flag [status_client_started; status_client_received_init] ->
  In v [status_client_connected; status_server_received_init;
        status_client_reconnecting] ->
  preserves (has_flag flag) (STATUS_UNSET v).
Proof.
  intros Hf Hv s H. unfold has_flag in *.
  cbn [STATUS_UNSET modify snd status_ with_status].
  cbn [In] in Hf, Hv.
  destruct Hf as [<-|[<-|[]]];
    destruct Hv as [<-|[<-|[<-|[]]]]; flags; now rewrite ?H.
Qed.

Lemma has_flag_set_init (flag : Z) (s : server) :
  In flag [status_client_started; status_client_received_init] ->
  has_flag flag s ->
  isset (status_ s) status_client_started = true ->
  has_flag flag (snd (STATUS_SET status_client_received_init s)).
Proof.
  intros Hf H _. unfold has_flag in *.
  cbn [STATUS_SET modify snd status_ with_status].
  cbn [In] in Hf.
  destruct Hf as [<-|[<-|[]]]; flags; now rewrite ?H.
Qed.

Ltac has_flag_side Hf :=
  first [ exact (has_flag_set _)
        | apply (fun v => has_flag_set _ v Hf)
        | apply (fun v => has_flag_unset _ v Hf)
        | apply (fun s => has_flag_set_init _ s Hf)
        | let H := fresh in intros ? ? H; exact H
        | let H := fresh in intros ? ? ? H; exact H ].

Lemma has_flag_run flag fuel o (s : server) :
  In flag [status_client_started; status_client_received_init] ->
  no_unexpected_disconnect o = true ->
  has_flag flag s -> has_flag flag (run fuel o s).
Proof.
  intros Hf Ho H. destruct o; cbn [run].
  - revert s H. apply preserves_connect; has_flag_side Hf.
  - cbn in Ho. subst expected. revert s H.
    apply preserves_expected_disconnect; has_flag_side Hf.
  - revert s H. apply preserves_cmd_start; try has_flag_side Hf.
    apply preserves_cmd_receive_unhandled; has_flag_side Hf.
  - revert s H. apply preserves_cmd_reconnect; has_flag_side Hf.
  - revert s H. apply preserves_public_call; has_flag_side Hf.
  - unfold tick. rewrite snd_bind.
    assert (H' : has_flag flag (snd (tick_heartbeat s)))
      by (unfold has_flag; now rewrite tick_heartbeat_status).
    destruct (fst (tick_heartbeat s)); [|exact H'].
    revert H'. generalize (snd (tick_heartbeat s)).
    apply preserves_tick_receive; has_flag_side Hf.
Qed.

(** X17: once [client_started] is set, no operation but an unexpected
    [disconnect] clears it: not [connect], not a reconnect of the client, not
    a public call or a tick with all the commands they dispatch, whatever the
    transport delivers and however long the loops run. *)
Theorem client_started_stays fuel o (s : server) :
  no_unexpected_disconnect o = true ->
  isset (status_ s) status_client_started = true ->
  isset (status_ (run fuel o s)) status_client_started = true.
Proof.
  intros Ho H. apply (has_flag_run status_client_started); auto.
  cbn. auto.
Qed.

(** X18: once [client_received_init] is set, no operation clears it, an
    unexpected [disconnect] included. *)
Theorem client_received_init_stays fuel o (s : server) :
  isset (status_ s) status_client_received_init = true ->
  isset (status_ (run fuel o s)) status_client_received_init = true.
Proof.
  intros H.
  destruct (no_unexpected_disconnect o) eqn:Ho.
  - apply (has_flag_run status_client_received_init); auto. cbn. auto.
  - destruct o; try discriminate. cbn in Ho. subst expected.
    cbn [run]. unfold disconnect.
    rewrite snd_bind, is_client_connected_eq. cbn [fst snd].
    split_if; [exact H|].
    cbn. flags. now rewrite H.
Qed.

(** X19: whatever its mode, valid or not, and whatever the drain of mode 2
    meets, [cmd_start] leaves [client_started] set. *)
Theorem cmd_start_sets_started fuel buf buflen (s : server) :
  isset (status_ (snd (cmd_start (cmd_receive_unhandled fuel) buf buflen s)))
        status_client_started = true.
Proof.
  assert (Hf : In status_client_started
                  [status_client_started; status_client_received_init])
    by (cbn; auto).
  assert (H1 : has_flag status_client_started (started_state s))
    by (unfold has_flag; cbn; now flags).
  change (has_flag status_client_started
            (snd (cmd_start (cmd_receive_unhandled fuel) buf buflen s))).
  rewrite cmd_start_eq. cbv zeta.
  repeat split_if; try exact H1.
  - unfold has_flag in *. cbn in *. flags.
    reflexivity.
  - match goal with
    | |- has_flag _ (snd (bind _ _ ?x)) =>
        assert (H2 : has_flag status_client_started x)
          by (unfold has_flag in *; cbn in *; flags;
              reflexivity);
        revert H2; generalize x
    end.
    apply preserves_bind.
    + apply preserves_cmd_receive_unhandled; has_flag_side Hf.
    + intros [[ok response] len]. unfold fake_init_receive.
      split_if; intros x Hx; exact Hx.
Qed.

End FurtherFlags.

(** ** What the operations can touch

    The invariants of [Invariant] may not look at heartbeat frames or depend
    on the init flag of the host.  The lemmas below ask for less: each names
    the frames, lines and flag changes the code under it really makes. *)

Section Footprint.

Context {T N C : Type}.
Context {transport : communication_server T}.
Context {natives : natives_map N}.
Context {callbacks : callbacks_map C}.
Context {version : version_h}.

Local Abbreviation server := (server T N C).

Variable I : server -> Prop.

Hypothesis F_communication : forall t s, I s -> I (with_communication t s).
Hypothesis F_natives : forall n s, I s -> I (with_natives n s).
Hypothesis F_callbacks : forall c s, I s -> I (with_callbacks c s).
Hypothesis F_buf : forall b s, I s -> I (with_buf b s).
Hypothesis F_log : forall prefix text, preserves I (vlog prefix text).
Hypothesis F_print : forall text, preserves I (print text).
Hypothesis F_gmx : preserves I (sampgdk_SendRconCommand "gmx").
Hypothesis F_sent :
  forall cmd data,
    In cmd [CMD_PONG; CMD_RESPONSE; CMD_PUBLIC_CALL; CMD_ANNOUNCE] ->
    preserves I (emit (Sent cmd data)).
Hypothesis F_heartbeat : preserves I (emit (Sent CMD_TICK [])).
Hypothesis F_set :
  forall v,
    In v [status_client_connected; status_client_started;
          status_client_received_init; status_client_reconnecting] ->
    preserves I (STATUS_SET v).
Hypothesis F_unset :
  forall v,
    In v [status_client_connected; status_client_reconnecting] ->
    preserves I (STATUS_UNSET v).
Hypothesis F_unset_started : preserves I (STATUS_UNSET status_client_started).
Hypothesis F_set_host : preserves I (STATUS_SET status_server_received_init).
Hypothesis F_unset_host :
  preserves I (STATUS_UNSET status_server_received_init).

Lemma fp_log_error text : preserves I (log_error text).
Proof. apply F_log. Qed.
Lemma fp_log_info text : preserves I (log_info text).
Proof. apply F_log. Qed.

Lemma fp_send cmd data :
  In cmd [CMD_PONG; CMD_RESPONSE; CMD_PUBLIC_CALL; CMD_ANNOUNCE] ->
  preserves I (send cmd data).
Proof.
  intros Hcmd. unfold send. apply preserves_bind.
  - now apply F_sent.
  - intros _ s H. now apply F_communication.
Qed.

Lemma fp_send_pong data : preserves I (send CMD_PONG data).
Proof. apply fp_send. cbn. auto. Qed.
Lemma fp_send_response data : preserves I (send CMD_RESPONSE data).
Proof. apply fp_send. cbn. auto. Qed.
Lemma fp_send_public_call data : preserves I (send CMD_PUBLIC_CALL data).
Proof. apply fp_send. cbn. auto. Qed.
Lemma fp_send_announce data : preserves I (send CMD_ANNOUNCE data).
Proof. apply fp_send. cbn. auto 6. Qed.

Lemma fp_isset v : preserves I (STATUS_ISSET v).
Proof. apply preserves_gets. Qed.
Lemma fp_set_connected : preserves I (STATUS_SET status_client_connected).
Proof. apply F_set. cbn. auto. Qed.
Lemma fp_set_started : preserves I (STATUS_SET status_client_started).
Proof. apply F_set. cbn. auto. Qed.
Lemma fp_set_client_init :
  preserves I (STATUS_SET status_client_received_init).
Proof. apply F_set. cbn. auto. Qed.
Lemma fp_set_reconnecting :
  preserves I (STATUS_SET status_client_reconnecting).
Proof. apply F_set. cbn. auto 6. Qed.
Lemma fp_unset_connected : preserves I (STATUS_UNSET status_client_connected).
Proof. apply F_unset. cbn. auto. Qed.
Lemma fp_unset_reconnecting :
  preserves I (STATUS_UNSET status_client_reconnecting).
Proof. apply F_unset. cbn. auto. Qed.

Lemma fp_transport_setup : preserves I transport_setup.
Proof. intros s H. now apply F_communication. Qed.
Lemma fp_transport_connect : preserves I transport_connect.
Proof. intros s H. now apply F_communication. Qed.
Lemma fp_transport_disconnect : preserves I transport_disconnect.
Proof. intros s H. now apply F_communication. Qed.
Lemma fp_transport_receive : preserves I transport_receive.
Proof.
  intros s H. unfold transport_receive.
  destruct (fst (comm_receive (communication_ s))) as [[stat cmd] payload].
  now apply F_buf, F_communication.
Qed.
Lemma fp_get_handle buf : preserves I (natives_call_get_handle buf).
Proof. intros s H. now apply F_natives. Qed.
Lemma fp_invoke buf buflen : preserves I (natives_call_invoke buf buflen).
Proof. intros s H. now apply F_buf, F_natives. Qed.
Lemma fp_fill_call_buffer amx name params :
  preserves I (fill_call_buffer amx name params).
Proof. intros s H. now apply F_buf. Qed.
Lemma fp_clear_natives :
  preserves I (modify (fun s => with_natives (natives_clear (natives_ s)) s)).
Proof. intros s H. now apply F_natives. Qed.
Lemma fp_clear_callbacks :
  preserves I (modify (fun s => with_callbacks (callbacks_clear (callbacks_ s))
                                               s)).
Proof. intros s H. now apply F_callbacks. Qed.

Hint Resolve fp_log_error fp_log_info F_print F_gmx fp_send_pong
  fp_send_response fp_send_public_call fp_send_announce fp_isset
  fp_set_connected fp_set_started fp_set_client_init fp_set_reconnecting
  fp_unset_connected fp_unset_reconnecting F_unset_started
  fp_transport_setup fp_transport_connect fp_transport_disconnect
  fp_transport_receive fp_get_handle fp_invoke fp_fill_call_buffer
  fp_clear_natives fp_clear_callbacks : preserve.

Lemma fp_is_client_connected : preserves I is_client_connected.
Proof. unfold is_client_connected. preserve. Qed.

Lemma fp_cmd_send_announce : preserves I cmd_send_announce.
Proof. unfold cmd_send_announce. preserve. Qed.

Hint Resolve fp_is_client_connected fp_cmd_send_announce : preserve.

Lemma fp_connect : preserves I connect.
Proof. unfold connect. preserve. Qed.

Lemma fp_disconnect context expected :
  preserves I (disconnect context expected).
Proof. unfold disconnect. preserve. Qed.

Hint Resolve fp_connect fp_disconnect : preserve.

Lemma fp_cmd_reconnect buf buflen : preserves I (cmd_reconnect buf buflen).
Proof. unfold cmd_reconnect. preserve. Qed.

Lemma fp_cmd_start drain buf buflen :
  preserves I drain -> preserves I (cmd_start drain buf buflen).
Proof. intros Hd. unfold cmd_start. cbv zeta. preserve. Qed.

Lemma fp_cmd_process drain cmd buf buflen resp resplen :
  preserves I drain ->
  preserves I (cmd_process drain cmd buf buflen resp resplen).
Proof.
  intros Hd. unfold cmd_process, cmd_ping, cmd_print, cmd_register_call,
    cmd_find_native, cmd_invoke_native.
  preserve.
  - intros s H. now apply F_callbacks.
  - apply fp_cmd_reconnect.
  - now apply fp_cmd_start.
Qed.

Lemma fp_cmd_receive_one drain response len :
  preserves I drain -> preserves I (cmd_receive_one drain response len).
Proof.
  intros Hd. unfold cmd_receive_one. preserve; now apply fp_cmd_process.
Qed.

Lemma fp_cmd_receive_unhandled fuel : preserves I (cmd_receive_unhandled fuel).
Proof.
  induction fuel as [|fuel IH]; cbn [cmd_receive_unhandled].
  - apply preserves_out_of_fuel.
  - preserve. now apply fp_cmd_receive_one.
Qed.

Hint Resolve fp_cmd_receive_unhandled : preserve.

Lemma fp_tick_receive fuel response len :
  preserves I (tick_receive fuel response len).
Proof.
  revert response len.
  induction fuel as [|fuel IH]; intros response len; cbn [tick_receive].
  - apply preserves_out_of_fuel.
  - apply preserves_bind;
      [apply fp_cmd_receive_one; auto with preserve|].
    intros [[stat resp] l]. destruct resp as [block|].
    + apply preserves_bind; [auto with preserve|intros _].
      destruct (is_released block); [apply preserves_ret|].
      destruct stat; try apply preserves_ret; apply IH.
    + destruct stat; try apply preserves_ret; apply IH.
Qed.

Lemma fp_send_heartbeat : preserves I (send CMD_TICK []).
Proof.
  unfold send. apply preserves_bind.
  - apply F_heartbeat.
  - intros _ s H. now apply F_communication.
Qed.

Hint Resolve fp_send_heartbeat fp_tick_receive : preserve.

Lemma fp_tick fuel : preserves I (tick fuel).
Proof. unfold tick, tick_heartbeat. preserve. Qed.

Lemma fp_public_call fuel amx name params retval :
  preserves I (public_call fuel amx name params retval).
Proof.
  unfold public_call, public_call_send, public_call_receive. cbv zeta.
  preserve; try apply F_set_host; try apply F_unset_host.
Qed.

Lemma fp_run_no_call fuel o :
  (forall amx name params retval,
      o <> op_public_call amx name params retval) ->
  forall s, I s -> I (run fuel o s).
Proof.
  intros Ho s H. destruct o; cbn [run].
  - now apply fp_connect.
  - now apply fp_disconnect.
  - apply fp_cmd_start; [apply fp_cmd_receive_unhandled|exact H].
  - now apply fp_cmd_reconnect.
  - now destruct (Ho amx name params retval).
  - now apply fp_tick.
Qed.

Lemma fp_run fuel o (s : server) : I s -> I (run fuel o s).
Proof.
  intros H. destruct o; cbn [run].
  - now apply fp_connect.
  - now apply fp_disconnect.
  - apply fp_cmd_start; [apply fp_cmd_receive_unhandled|exact H].
  - now apply fp_cmd_reconnect.
  - now apply fp_public_call.
  - now apply fp_tick.
Qed.

End Footprint.

Section FurtherFootprint.

Context {T N C : Type}.
Context {transport : communication_server T}.
Context {natives : natives_map N}.
Context {callbacks : callbacks_map C}.
Context {version : version_h}.

Local Abbreviation server := (server T N C).
Local Abbreviation grown_from := (@grown_from T N C).
Local Abbreviation host_init_is := (@host_init_is T N C).

Lemma console_commands_app (tr1 tr2 : list (Z * event)) :
  console_commands (tr1 ++ tr2) = console_commands tr1 ++ console_commands tr2.
Proof. apply flat_map_app. Qed.

Lemma grown_from_emit tr e :
  match e with
  | Sent c _ => In c host_commands
  | Rcon c => c = "gmx"%string
  | _ => True
  end ->
  preserves (grown_from tr) (emit e : M server unit).
Proof.
  intros He s (added & Htr & Hsent & Hcon).
  exists (added ++ [(status_ s, e)]). split; [|split].
  - cbn. now rewrite Htr, app_assoc.
  - rewrite sent_commands_app. apply Forall_app. split; [exact Hsent|].
    destruct e; cbn; auto.
  - rewrite console_commands_app. apply Forall_app. split; [exact Hcon|].
    destruct e; cbn; auto.
Qed.

(** Side conditions of the lemmas of [Footprint] for [grown_from]. *)
Ltac grown_side :=
  first [ let H := fresh in intros ? ? H; exact H
        | let H := fresh in intros ? ? ? H; exact H
        | let H := fresh in intros ? H; exact H
        | intros; apply grown_from_emit; cbn in *; solve [intuition auto] ].

(** X20: whatever the operation, the transport and the fuel, the trace only
    grows, every frame the server sends carries one of the commands tick,
    pong, public call, announce and response (0x03), and the only console
    command it issues is gmx.  A frame with command reply (0x14) is never
    sent. *)
Theorem frames_of_the_host fuel o (s : server) :
  exists added,
    trace (run fuel o s) = trace s ++ added /\
    Forall (fun c => In c host_commands) (sent_commands added) /\
    Forall (fun c => c = "gmx"%string) (console_commands added) /\
    ~ In CMD_REPLY (sent_commands added).
Proof.
  assert (H0 : grown_from (trace s) s).
  { exists []. rewrite app_nil_r. repeat split; constructor. }
  assert (H : grown_from (trace s) (run fuel o s)).
  { revert H0. generalize (trace s) as tr. intros tr H0.
    revert H0. apply fp_run; grown_side. }
  destruct H as (added & Htr & Hsent & Hcon).
  exists added. repeat split; auto.
  intros Hin. rewrite Forall_forall in Hsent.
  specialize (Hsent _ Hin). cbn in Hsent.
  unfold CMD_REPLY, CMD_TICK, CMD_PONG, CMD_PUBLIC_CALL, CMD_ANNOUNCE,
    CMD_RESPONSE in Hsent.
  intuition discriminate.
Qed.

Lemma host_init_is_set b v :
  In v [status_client_connected; status_client_started;
        status_client_received_init; status_client_reconnecting] ->
  preserves (host_init_is b) (STATUS_SET v).
Proof.
  intros Hv s H. unfold host_init_is in *.
  cbn [STATUS_SET modify snd status_ with_status]. cbn [In] in Hv.
  destruct Hv as [<-|[<-|[<-|[<-|[]]]]]; flags; exact H.
Qed.

Lemma host_init_is_unset b v :
  In v [status_client_connected; status_client_started;
        status_client_reconnecting] ->
  preserves (host_init_is b) (STATUS_UNSET v).
Proof.
  intros Hv s H. unfold host_init_is in *.
  cbn [STATUS_UNSET modify snd status_ with_status]. cbn [In] in Hv.
  destruct Hv as [<-|[<-|[<-|[]]]]; flags; exact H.
Qed.


(** X22: [disconnect] is idempotent whatever the transport does: a second
    call, with any context and of either kind, changes nothing, because the
    first one leaves [client_connected] unset. *)
Theorem disconnect_twice context1 expected1 context2 expected2 (s : server) :
  disconnect context2 expected2 (snd (disconnect context1 expected1 s))
  = (Some tt, snd (disconnect context1 expected1 s)).
Proof.
  assert (Hoff : forall context expected (x : server),
             comm_is_connected (communication_ x)
             && isset (status_ x) status_client_connected = false ->
             disconnect context expected x = (Some tt, x)).
  { intros context expected x Hx. unfold disconnect.
    now rewrite (bind_pure _ _ _ _ (is_client_connected_eq x)), Hx. }
  destruct (comm_is_connected (communication_ s)
            && isset (status_ s) status_client_connected) eqn:Hb.
  - apply Hoff. apply andb_false_iff. right.
    unfold disconnect.
    rewrite snd_bind, is_client_connected_eq. cbn [fst snd].
    rewrite Hb. cbn [negb].
    destruct expected1; cbn; now flags.
  - rewrite (Hoff context1 expected1 s Hb). cbn [snd]. now apply Hoff.
Qed.

End FurtherFootprint.


(** * The further properties on the demo servers *)

(** X1 at a first connection. *)
Lemma connect_establishes_witness :
  comm_is_connected (communication_ (demo [])) = false /\
  connectable (communication_ (demo [])) = true /\
  fst (connect (demo [])) = Some true /\
  sent_commands (trace (snd (connect (demo [])))) = [CMD_ANNOUNCE].
Proof.
  split; [reflexivity|]. split; [reflexivity|]. split; [|reflexivity].
  exact (proj1 (connect_establishes (demo []) eq_refl eq_refl)).
Defined.

(** X2 at a server that no client can reach. *)
Lemma connect_result_witness :
  fst (connect demo_offline) = Some false /\
  status_ (snd (connect demo_offline)) = status_ demo_offline /\
  trace (snd (connect demo_offline)) = trace demo_offline.
Proof.
  assert (H : fst (connect demo_offline) = Some false) by reflexivity.
  split; [exact H|].
  pose proof (proj2 (connect_result demo_offline) H) as (H1 & _ & _ & _ & H5).
  split; [exact H1|exact H5].
Defined.

(** X3 at the client of [demo_session]. *)
Lemma reconnect_keeps_client_witness :
  comm_is_connected (communication_ (demo_session [])) = true /\
  isset (status_ (demo_session [])) status_client_connected = true /\
  fst (connect (snd (cmd_reconnect [] 0 (demo_session [])))) = Some true /\
  callbacks_ (snd (connect (snd (cmd_reconnect [] 0 (demo_session [])))))
  = ["OnGameModeInit"%string].
Proof.
  split; [reflexivity|]. split; [reflexivity|]. split; [|reflexivity].
  exact (proj1 (reconnect_keeps_client [] 0 (demo_session [])
                  eq_refl eq_refl eq_refl eq_refl)).
Defined.

(** X4 at start mode 1 before the host has seen its init event. *)
Lemma cmd_start_before_host_init_witness :
  isset (status_ demo_connected) status_server_received_init = false /\
  fst (cmd_start out_of_fuel [1] 1 demo_connected) = Some tt /\
  console_commands (trace (snd (cmd_start out_of_fuel [1] 1 demo_connected)))
  = [].
Proof.
  split; [reflexivity|]. split; [|reflexivity].
  exact (proj1 (proj2 (cmd_start_before_host_init out_of_fuel [1] 1
                         demo_connected eq_refl))).
Defined.

(** X5 at start mode 1 after the host has seen its init event. *)
Lemma cmd_start_gmx_witness :
  start_mode [1] 1 = 1 /\
  isset (status_ demo_host_ready) status_server_received_init = true /\
  fst (cmd_start out_of_fuel [1] 1 demo_host_ready) = Some tt /\
  console_commands (trace (snd (cmd_start out_of_fuel [1] 1 demo_host_ready)))
  = ["gmx"%string].
Proof.
  split; [reflexivity|]. split; [reflexivity|]. split; [|reflexivity].
  exact (proj1 (cmd_start_gmx out_of_fuel [1] 1 demo_host_ready
                  eq_refl eq_refl)).
Defined.

(** X6 at start mode 2 after the host has seen its init event. *)
Lemma cmd_start_fake_init_witness :
  start_mode [2] 1 = 2 /\
  isset (status_ demo_host_ready) status_server_received_init = true /\
  isset (Z.lor (Z.lor (status_ demo_host_ready) status_client_started)
               status_client_received_init)
        status_client_received_init = true.
Proof.
  split; [reflexivity|]. split; [reflexivity|].
  exact (proj1 (cmd_start_fake_init out_of_fuel [2] 1 demo_host_ready
                  eq_refl eq_refl)).
Defined.

(** X7 at a started client that registered no callback. *)
Lemma public_call_forwarded_iff_witness :
  forwarded None "OnGameModeInit" [0] demo_started = false /\
  fst (public_call 1 None "OnGameModeInit" [0] (Some 7) demo_started)
  = Some (Some 7).
Proof.
  assert (H : forwarded None "OnGameModeInit" [0] demo_started = false)
    by reflexivity.
  split; [exact H|].
  pose proof (proj2 (proj2 (proj2 (proj2 (proj2
                (public_call_forwarded_iff 1 None "OnGameModeInit" [0]
                   (Some 7) demo_started))))) H) as E.
  rewrite E. reflexivity.
Defined.

(** X8 at a server without a client. *)
Lemma public_call_tracks_host_init_witness :
  comm_is_connected (communication_ (demo []))
  && isset (status_ (demo [])) status_client_connected
  && isset (status_ (demo [])) status_client_started = false /\
  public_call 1 None "OnGameModeInit" [0] None (demo [])
  = (Some None, with_status status_server_received_init (demo [])).
Proof.
  split; [reflexivity|].
  exact (proj2 (public_call_tracks_host_init 1 None "OnGameModeInit" [0] None
                  (demo [])) eq_refl).
Defined.

(** X9 at a reply of two bytes. *)
Lemma public_call_short_reply_witness :
  let s1 := snd (public_call_send None "OnGameModeInit" [0] demo_short_reply) in
  let s2 := snd (cmd_receive_unhandled 1 s1) in
  public_call_send None "OnGameModeInit" [0] demo_short_reply
  = (Some true, s1) /\
  cmd_receive_unhandled 1 s1 = (Some (true, Some [1; 42], 2), s2) /\
  public_call 1 None "OnGameModeInit" [0] (Some 7) demo_short_reply
  = (Some (Some 7), s2).
Proof.
  intros s1 s2.
  assert (H1 : public_call_send None "OnGameModeInit" [0] demo_short_reply
               = (Some true, s1)) by (vm_compute; reflexivity).
  assert (H2 : cmd_receive_unhandled 1 s1
               = (Some (true, Some [1; 42], 2), s2))
    by (vm_compute; reflexivity).
  assert (H3 : 2 < 5 \/ nth 0 [1; 42] 0 = 0) by (left; reflexivity).
  split; [exact H1|]. split; [exact H2|].
  exact (public_call_short_reply 1 None "OnGameModeInit" [0] (Some 7)
           demo_short_reply s1 s2 [1; 42] 2 H1 H2 H3).
Defined.

(** X10 at a connection that dies before the reply. *)
Lemma public_call_connection_dead_witness :
  let s1 := snd (public_call_send None "OnGameModeInit" [0] demo_dying) in
  public_call_send None "OnGameModeInit" [0] demo_dying = (Some true, s1) /\
  connect s1 = (Some true, s1) /\
  fst (cmd_receive_unhandled 1 s1) = Some (false, None, 0) /\
  fst (public_call 1 None "OnGameModeInit" [0] (Some 7) demo_dying)
  = Some (Some 7).
Proof.
  intros s1.
  assert (H1 : public_call_send None "OnGameModeInit" [0] demo_dying
               = (Some true, s1)) by (vm_compute; reflexivity).
  assert (H2 : connect s1 = (Some true, s1)) by (vm_compute; reflexivity).
  assert (H3 : comm_receive (communication_ s1)
               = ((conn_dead, 0, []), snd (comm_receive (communication_ s1))))
    by (vm_compute; reflexivity).
  split; [exact H1|]. split; [exact H2|].
  pose proof (public_call_connection_dead O None "OnGameModeInit" [0] (Some 7)
                demo_dying s1 _ H1
                (or_intror (ex_intro _ s1 (ex_intro _ 0 (ex_intro _ []
                   (ex_intro _ _ (conj H2 (conj H3 eq_refl))))))))
    as [E1 E2].
  rewrite E1, E2. split; reflexivity.
Defined.

(** X11 at a reply of five bytes. *)
Lemma unhandled_frame_delivered_witness :
  connect demo_replying = (Some true, demo_replying) /\
  is_mapped CMD_RESPONSE = false /\
  fst (cmd_receive_one out_of_fuel None 0 demo_replying)
  = Some (unhandled, Some [1; 42; 0; 0; 0], 5).
Proof.
  assert (H1 : connect demo_replying = (Some true, demo_replying))
    by (vm_compute; reflexivity).
  assert (H2 : comm_receive (communication_ demo_replying)
               = ((unhandled, CMD_RESPONSE, [1; 42; 0; 0; 0]),
                  snd (comm_receive (communication_ demo_replying))))
    by (vm_compute; reflexivity).
  assert (H3 : [1; 42; 0; 0; 0] <> []) by discriminate.
  split; [exact H1|]. split; [reflexivity|].
  rewrite (unhandled_frame_delivered out_of_fuel None 0 demo_replying
             demo_replying unhandled CMD_RESPONSE [1; 42; 0; 0; 0] _
             H1 H2 (or_intror eq_refl) eq_refl H3).
  reflexivity.
Defined.

(** X13 at a server that no client can reach. *)
Lemma tick_without_client_witness :
  connect demo_offline = (Some false, demo_offline) /\
  tick 1 demo_offline = (Some tick_returned, demo_offline).
Proof.
  assert (H : connect demo_offline = (Some false, demo_offline))
    by reflexivity.
  split; [exact H|].
  exact (proj1 (tick_without_client O demo_offline demo_offline H)).
Defined.

(** A reply that arrives outside a call: the tick that pulls it logs the
    error and releases the copy; the next round finds the inbox empty and the
    pointer still set, logs the error again and releases the block again. *)
Lemma tick_releases_twice :
  fst (tick 1 demo_replying) = None /\
  fst (tick 2 demo_replying) = Some tick_double_free /\
  trace (snd (tick 2 demo_replying))
  = trace demo_replying
    ++ [(status_ demo_replying, logged "ERROR" "Unhandled response in tick.");
        (status_ demo_replying, logged "ERROR" "Unhandled response in tick.")].
Proof. now vm_compute. Qed.

(** X14 at a native that is not known: the handle is -1. *)
Lemma cmd_find_native_reply_witness :
  fst (natives_get_handle [71; 0] (natives_ demo_connected)) = -1 /\
  - 2 ^ 31 <= -1 < 2 ^ 31 /\
  le_bytes32 (-1) = [255; 255; 255; 255] /\
  to_cell (read_u32 (le_bytes32 (-1)) 0) = -1.
Proof.
  assert (H : - 2 ^ 31 <= -1 < 2 ^ 31) by lia.
  split; [reflexivity|]. split; [exact H|]. split; [reflexivity|].
  exact (proj2 (proj2 (proj2 (proj2 (proj2 (proj2
           (cmd_find_native_reply [71; 0] 2 demo_connected)))))) H).
Defined.

(** X15 at the reply of [demo_replying], which carries 42. *)
Lemma public_call_returns_value_witness :
  let s1 := snd (public_call_send None "OnGameModeInit" [0] demo_replying) in
  let s2 := snd (cmd_receive_unhandled 1 s1) in
  public_call_send None "OnGameModeInit" [0] demo_replying = (Some true, s1) /\
  cmd_receive_unhandled 1 s1 = (Some (true, Some (1 :: le_bytes32 42), 5), s2) /\
  1 <> 0 /\ - 2 ^ 31 <= 42 < 2 ^ 31 /\
  public_call 1 None "OnGameModeInit" [0] (Some 7) demo_replying
  = (Some (Some 42), s2).
Proof.
  intros s1 s2.
  assert (H1 : public_call_send None "OnGameModeInit" [0] demo_replying
               = (Some true, s1)) by (vm_compute; reflexivity).
  assert (H2 : cmd_receive_unhandled 1 s1
               = (Some (true, Some (1 :: le_bytes32 42), 5), s2))
    by (vm_compute; reflexivity).
  assert (H3 : 1 <> 0) by discriminate.
  assert (H4 : - 2 ^ 31 <= 42 < 2 ^ 31) by lia.
  split; [exact H1|]. split; [exact H2|]. split; [exact H3|].
  split; [exact H4|].
  exact (public_call_returns_value 1 None "OnGameModeInit" [0] 7
           demo_replying s1 s2 1 42 H1 H2 H3 H4).
Defined.


(** X17 at a tick of a started client. *)
Lemma client_started_stays_witness :
  no_unexpected_disconnect op_tick = true /\
  isset (status_ demo_started) status_client_started = true /\
  isset (status_ (run 1 op_tick demo_started)) status_client_started = true.
Proof.
  split; [reflexivity|]. split; [reflexivity|].
  exact (client_started_stays 1 op_tick demo_started eq_refl eq_refl).
Defined.

(** X18 at a second unexpected disconnect of a client that received init. *)
Lemma client_received_init_stays_witness :
  isset (status_ demo_lost) status_client_received_init = true /\
  isset (status_ (run 1 (op_disconnect None false) demo_lost))
        status_client_received_init = true.
Proof.
  split; [reflexivity|].
  exact (client_received_init_stays 1 (op_disconnect None false) demo_lost
           eq_refl).
Defined.

